(** * code_review.py: the pull-request review pipeline

    A shallow embedding of [src/code_review.py]: the three stages
    [get_pull_request_details], [execute_cody_cli], [add_pr_comment] and the
    driver under [if __name__ == "__main__"].

    The script is sequential I/O glue, so the model is a small monad that
    records what the program does to the outside (HTTP requests, the
    subprocess, printed lines) and how a call ends (a value, [exit(code)],
    or an exception that travels upwards).  What the outside answers is
    read from a [world] record.

    Library behaviour the model relies on:
    - [Response.raise_for_status()] raises an HTTPError, with the response
      attached, for a status from 400 to 599 and for no other status;
    - [requests.get] and [requests.post] report the failures of the
      exchange as subclasses of [RequestException], whose [response] may
      be None; they can also raise an exception of another class (a
      UnicodeEncodeError for a header value outside latin-1), which the
      script's handlers for [RequestException] do not catch;
    - [Response.json()] on a body that is not JSON raises requests' own
      JSONDecodeError, a [RequestException] without a response (requests
      2.27 and later; the script pins the API version 2022-11-28); on a
      body the decoder gives up on it raises an exception of another class
      (RecursionError on deep nesting, ValueError on an integer beyond the
      digit limit);
    - [exit(code)] raises SystemExit, which is not an [Exception], so no
      handler of the script catches it; the exit code of a run is the
      argument given to [exit];
    - [urlparse(...).hostname] and [str.strip()] are not opened: the
      [world] carries them. *)

From Stdlib Require Import ZArith String Ascii List Lia DecimalString.
From stdpp Require Import base option gmap strings list fin_maps.
Import ListNotations.

Local Open Scope Z_scope.
Local Open Scope string_scope.
Local Open Scope list_scope.

(** ** Python strings *)

(** The line feed that the source writes as a backslash followed by n. *)
Definition LF : string := String (ascii_of_nat 10) EmptyString.

(** [str(n)] for a Python int. *)
Definition str_int (n : Z) : string := NilZero.string_of_int (Z.to_int n).

(** [s.split(sep)] for a one-character separator: always at least one
    piece, empty pieces are kept. *)
Fixpoint split_on (sep : ascii) (s : string) : list string :=
  match s with
  | EmptyString => [EmptyString]
  | String c rest =>
      if Ascii.eqb c sep then EmptyString :: split_on sep rest
      else match split_on sep rest with
           | piece :: pieces => String c piece :: pieces
           | [] => [String c EmptyString]
           end
  end.

Definition slash : ascii := ascii_of_nat 47.

(** [c in s] for a character. *)
Fixpoint occurs (c : ascii) (s : string) : bool :=
  match s with
  | EmptyString => false
  | String d rest => Ascii.eqb d c || occurs c rest
  end.

(** ** JSON values as the script sees them *)

(** A value stored under a key of a decoded JSON object.  The script only
    ever formats such a value into an f-string, so a value that is neither
    null, a boolean nor a string (a number, a nested list or object) is
    kept together with the text [str()] gives for it. *)
Inductive pyval : Type :=
  | PyNone
  | PyBool (b : bool)
  | PyStr (s : string)
  | PyOther (text : string).

(** [str(v)], which is what [f"{v}"] inserts. *)
Definition py_str (v : pyval) : string :=
  match v with
  | PyNone => "None"
  | PyBool true => "True"
  | PyBool false => "False"
  | PyStr s => s
  | PyOther text => text
  end.

(** A decoded JSON document: an object (a Python dict) or an array of
    objects (a Python list of dicts), the two shapes the GitHub API
    answers with. *)
Inductive json : Type :=
  | JObject (d : gmap string pyval)
  | JArray (l : list (gmap string pyval)).

(** [d.get(key)]: the value, or [None] when the key is absent. *)
Definition dict_get (d : gmap string pyval) (key : string) : pyval :=
  default PyNone (d !! key).

(** [d.get(key, fallback)]. *)
Definition dict_get_or (d : gmap string pyval) (key : string) (fallback : pyval) : pyval :=
  default fallback (d !! key).

(** ** The requests library *)

(** What [Response.json()] does with the body: it returns the decoded
    document; or the body is not JSON and it raises requests'
    JSONDecodeError with the text [decode_error]; or the decoder raises an
    exception of class [cls] that is not a RequestException (RecursionError
    on deep nesting, ValueError on an integer beyond the digit limit). *)
Inductive body : Type :=
  | JsonBody (j : json)
  | NotJson (decode_error : string)
  | JsonFails (cls msg : string).

(** A [requests.Response]. *)
Record response : Type := mkResponse {
  status_code : Z;
  reason : string;
  url : string;
  text : string;
  content : body
}.

(** Python exceptions.  [RequestException] stands for
    [requests.exceptions.RequestException] and all its subclasses
    (ConnectionError, Timeout, HTTPError, JSONDecodeError, ...); its
    [response] attribute may be [None]. *)
Inductive exn : Type :=
  | RequestException (msg : string) (resp : option response)
  | FileNotFoundError (msg : string)
  | OtherException (cls msg : string).

(** [str(e)]. *)
Definition exn_str (e : exn) : string :=
  match e with
  | RequestException msg _ => msg
  | FileNotFoundError msg => msg
  | OtherException _ msg => msg
  end.

(** The answer to one call of [requests.get] / [requests.post]: a
    response; or the [RequestException] the call raised; or an exception
    of class [cls] that is not a RequestException, raised by the call
    before anything is sent (UnicodeEncodeError for a header value outside
    latin-1). *)
Inductive http_reply : Type :=
  | Replied (r : response)
  | Failed (msg : string) (resp : option response)
  | Crashed (cls msg : string).

(** The answer to [subprocess.run(..., capture_output=True, text=True,
    check=False)]. *)
Inductive run_reply : Type :=
  | Completed (returncode : Z) (stdout stderr : string)
  | NotFound (msg : string)
  | RunError (cls msg : string).

(** ** The outside world *)

Definition headers : Type := list (string * string).

Record world : Type := mkWorld {
  (** [requests.get(url, headers=headers, verify=False)] *)
  requests_get : string -> headers -> http_reply;
  (** [requests.post(url, headers=headers, data=json.dumps({"body": b}),
      verify=False)], as a function of url, headers and [b] *)
  requests_post : string -> headers -> string -> http_reply;
  (** [subprocess.run(argv, ...)] *)
  subprocess_run : list string -> run_reply;
  (** [urlparse(u).hostname]: library code that the model does not open;
      it may raise on a malformed URL *)
  urlparse_hostname : string -> exn + option string;
  (** [s.strip()]: library code that the model does not open *)
  str_strip : string -> string
}.

(** ** Effects *)

Inductive stream : Type := Stdout | Stderr.

(** What the program does to the outside, in order: the lines it
    prints, its calls of [requests.get] and [requests.post], and the
    subprocess it starts.  The traceback that the interpreter writes when
    an exception leaves the script is not an event of the script. *)
Inductive event : Type :=
  | Output (f : stream) (line : string)
  | OutputJson (f : stream) (j : json)
  | HttpGet (u : string) (h : headers)
  | HttpPost (u : string) (h : headers) (comment_body : string)
  | Run (argv : list string).

(** How a piece of code ends: it returns, it calls [exit(code)]
    (SystemExit, which no [except Exception] clause catches), or an
    exception leaves it. *)
Inductive outcome (A : Type) : Type :=
  | Ret (a : A)
  | Exit (code : Z)
  | Raise (e : exn).
Arguments Ret {A} a.
Arguments Exit {A} code.
Arguments Raise {A} e.

Definition M (A : Type) : Type := list event * outcome A.

Definition ret {A} (a : A) : M A := ([], Ret a).

Definition bind {A B} (m : M A) (k : A -> M B) : M B :=
  match m with
  | (t, Ret a) => let (t', o) := k a in (t ++ t', o)
  | (t, Exit c) => (t, Exit c)
  | (t, Raise e) => (t, Raise e)
  end.

Notation "x <- m ;; k" := (bind m (fun x => k))
  (at level 100, m at next level, right associativity).
Notation "m ;;; k" := (bind m (fun _ => k))
  (at level 100, right associativity).

Definition emit (e : event) : M unit := ([e], Ret tt).
Definition print (f : stream) (line : string) : M unit := emit (Output f line).
Definition exit {A} (code : Z) : M A := ([], Exit code).
Definition raise {A} (e : exn) : M A := ([], Raise e).

(** [try: m except ...: handler].  The handler says which exceptions it
    takes ([Some]) and which it lets through ([None]); [exit] is never
    taken. *)
Definition try_except {A} (m : M A) (handler : exn -> option (M A)) : M A :=
  match m with
  | (t, Raise e) =>
      match handler e with
      | Some k => let (t', o) := k in (t ++ t', o)
      | None => (t, Raise e)
      end
  | other => other
  end.

(** [except requests.exceptions.RequestException as e: k e] *)
Definition except_RequestException {A} (k : string -> option response -> M A)
    (e : exn) : option (M A) :=
  match e with
  | RequestException msg resp => Some (k msg resp)
  | _ => None
  end.

Definition trace {A} (m : M A) : list event := fst m.
Definition ending {A} (m : M A) : outcome A := snd m.

(** ** Library calls as effects *)

(** [requests.get(u, headers=h, verify=False)] *)
Definition http_get (w : world) (u : string) (h : headers) : M response :=
  emit (HttpGet u h) ;;;
  match requests_get w u h with
  | Replied r => ret r
  | Failed msg resp => raise (RequestException msg resp)
  | Crashed cls msg => raise (OtherException cls msg)
  end.

(** [requests.post(u, headers=h, data=json.dumps({"body": b}), verify=False)] *)
Definition http_post (w : world) (u : string) (h : headers) (b : string) : M response :=
  emit (HttpPost u h b) ;;;
  match requests_post w u h b with
  | Replied r => ret r
  | Failed msg resp => raise (RequestException msg resp)
  | Crashed cls msg => raise (OtherException cls msg)
  end.

(** The message [Response.raise_for_status()] builds: empty unless the
    status is a client error (400-499) or a server error (500-599). *)
Definition http_error_msg (r : response) : string :=
  if ((400 <=? status_code r) && (status_code r <? 500))%Z then
    str_int (status_code r) +:+ " Client Error: " +:+ reason r
      +:+ " for url: " +:+ url r
  else if ((500 <=? status_code r) && (status_code r <? 600))%Z then
    str_int (status_code r) +:+ " Server Error: " +:+ reason r
      +:+ " for url: " +:+ url r
  else "".

(** [Response.raise_for_status()]: an HTTPError carrying the response
    when there is a message, nothing otherwise. *)
Definition raise_for_status (r : response) : M unit :=
  if negb (String.eqb (http_error_msg r) "") then
    raise (RequestException (http_error_msg r) (Some r))
  else ret tt.

(** [Response.json()]: requests raises its own JSONDecodeError, a
    RequestException without a response, when the body is not JSON; an
    exception of the decoder that is of another class comes out as it is. *)
Definition response_json (r : response) : M json :=
  match content r with
  | JsonBody j => ret j
  | NotJson decode_error => raise (RequestException decode_error None)
  | JsonFails cls msg => raise (OtherException cls msg)
  end.

(** [subprocess.run(argv, capture_output=True, text=True, check=False)],
    giving (returncode, stdout, stderr). *)
Definition run (w : world) (argv : list string) : M (Z * string * string) :=
  emit (Run argv) ;;;
  match subprocess_run w argv with
  | Completed returncode stdout stderr => ret (returncode, stdout, stderr)
  | NotFound msg => raise (FileNotFoundError msg)
  | RunError cls msg => raise (OtherException cls msg)
  end.

(** The AttributeError of [x.attr] on an object of type [ty]. *)
Definition attribute_error (ty attr : string) : exn :=
  OtherException "AttributeError"
    ("'" +:+ ty +:+ "' object has no attribute '" +:+ attr +:+ "'").

(** ** get_pull_request_details (lines 14-65) *)

(** The body of the loop [for file_info in files_data] (lines 52-57),
    as a function of the report so far. *)
Definition append_file (result : string) (file_info : gmap string pyval) : string :=
  let result := result +:+ ("File Name: " +:+ py_str (dict_get file_info "filename") +:+ LF) in
  let patch := dict_get_or file_info "patch" (PyStr "No patch data available.") in
  let result := result +:+ ("Patch:" +:+ LF) in
  let result := result +:+ ("--------------------------------" +:+ LF) in
  let result := result +:+ (py_str patch +:+ LF) in
  result +:+ "--------------------------------".

(** The handler of both [except] clauses (lines 37-41 and 59-63): the
    [exit(1)] sits inside [if e.response is not None]. *)
Definition on_request_exception (result : string) (e_msg : string)
    (e_response : option response) : M string :=
  print Stdout ("Error fetching files data: " +:+ e_msg) ;;;
  match e_response with
  | Some r => print Stdout ("API Response: " +:+ text r) ;;; exit 1
  | None => ret result
  end.

(** The request headers of lines 21-24. *)
Definition fetch_headers (token : string) : headers :=
  [("Authorization", "token " +:+ token);
   ("Accept", "application/vnd.github.v3+json")].

(** [pr_api_url] (line 27) and [files_api_url] (line 44). *)
Definition pr_api_url (api_url owner repo pr_number : string) : string :=
  api_url +:+ "/repos/" +:+ owner +:+ "/" +:+ repo +:+ "/pulls/" +:+ pr_number.

Definition files_api_url (api_url owner repo pr_number : string) : string :=
  pr_api_url api_url owner repo pr_number +:+ "/files".

Definition get_pull_request_details (w : world)
    (api_url owner repo pr_number token : string) : M string :=
  let result := "" in
  let headers := fetch_headers token in
  let pr_api_url := pr_api_url api_url owner repo pr_number in
  result <- try_except
    (response <- http_get w pr_api_url headers ;;
     raise_for_status response ;;;
     pr_data <- response_json response ;;
     match pr_data with
     | JObject d =>
         let result := result +:+ ("--- Pull Request Details ---" +:+ LF) in
         let result := result +:+ ("Title: " +:+ py_str (dict_get d "title") +:+ LF) in
         ret (result +:+ ("Body:" +:+ LF +:+ py_str (dict_get d "body") +:+ LF +:+ LF))
     | JArray _ => raise (attribute_error "list" "get")
     end)
    (except_RequestException (on_request_exception result)) ;;
  let files_api_url := files_api_url api_url owner repo pr_number in
  result <- try_except
    (response <- http_get w files_api_url headers ;;
     raise_for_status response ;;;
     files_data <- response_json response ;;
     let result := result +:+ ("--- Changed Files ---" +:+ LF) in
     match files_data with
     | JArray l => ret (fold_left append_file l result)
     | JObject d =>
         (* iterating a dict yields its keys, which are strings *)
         if decide (d = ∅) then ret result
         else raise (attribute_error "str" "get")
     end)
    (except_RequestException (on_request_exception result)) ;;
  ret result.

(** ** execute_cody_cli (lines 68-96) *)

(** [command_list] (line 69). *)
Definition command_list (repo prompt : string) : list string :=
  ["cody"; "chat"; "--context-repo"; repo; "-m"; prompt].

Definition execute_cody_cli (w : world) (repo prompt : string) : M string :=
  let command_list := command_list repo prompt in
  try_except
    (result <- run w command_list ;;
     let '(returncode, stdout, stderr) := result in
     if (returncode =? 0)%Z then ret (str_strip w stdout)
     else
       print Stdout (str_strip w stderr) ;;;
       print Stderr (LF +:+ "--- Command failed! ---") ;;;
       exit returncode)
    (fun e =>
       match e with
       | FileNotFoundError _ =>
           Some (print Stderr "Error: The command 'cody' was not found." ;;;
                 print Stderr "Please ensure 'cody' is installed and in your system's PATH." ;;;
                 exit 1)
       | _ =>
           Some (print Stderr ("An unexpected error occurred: " +:+ exn_str e) ;;;
                 exit 1)
       end).

(** ** add_pr_comment (lines 99-130) *)

(** [url] (line 101) and [headers] (lines 104-108). *)
Definition comments_url (api_url owner repo pr_number : string) : string :=
  api_url +:+ "/repos/" +:+ owner +:+ "/" +:+ repo
    +:+ "/issues/" +:+ pr_number +:+ "/comments".

Definition comment_headers (token : string) : headers :=
  [("Authorization", "Bearer " +:+ token);
   ("Accept", "application/vnd.github+json");
   ("X-GitHub-Api-Version", "2022-11-28")].

(** The value returned is [Some] parsed body, or [None] for Python's None. *)
Definition add_pr_comment (w : world)
    (api_url owner repo pr_number token comment_body : string) : M (option json) :=
  let u := comments_url api_url owner repo pr_number in
  let headers := comment_headers token in
  try_except
    (response <- http_post w u headers comment_body ;;
     if (status_code response =? 201)%Z then
       print Stdout "Comment added successfully!" ;;;
       j <- response_json response ;;
       ret (Some j)
     else
       print Stdout ("Failed to add comment. Status code: "
                       +:+ str_int (status_code response)) ;;;
       j <- response_json response ;;
       emit (OutputJson Stdout j) ;;;
       ret None)
    (except_RequestException (fun e_msg _ =>
       print Stdout ("An error occurred: " +:+ e_msg) ;;;
       ret None)).

(** ** The driver (lines 133-229) *)

(** The text of [cody_prompt] before [{pr_details}] (lines 168-172). *)
Definition prompt_head : string :=
"You are an expert code reviewer tasked with analyzing the changes in a GitHub pull request (PR).
Your review must focus **exclusively** on the modified, added, or removed lines in the PR diffs, as provided below.
Only reference the broader repository codebase when necessary to understand the context of the changes (e.g., to verify referenced variables, functions, or dependencies).
Provide clear, actionable feedback on correctness, best practices, security, and maintainability, specific to the changed lines.

".

(** The text of [cody_prompt] after [{pr_details}] (lines 173-223). *)
Definition prompt_tail : string :=
"

**Instructions**:
1. **Analyze Only the PR Changes**:
   - Review the diffs in each changed file, focusing solely on the added, removed, or modified lines.
   - Check the syntax and semantics of the changes for correctness, ensuring they align with the programming language or configuration format used.
   - Infer the purpose of the changes based on the PR title, body (if provided), and diffs. If the intent is unclear, note it and suggest seeking clarification from the PR author.

2. **Contextual References (Only When Necessary)**:
   - If the changed lines reference variables, functions, or resources (e.g., a variable in a configuration file), check the repository to confirm their definition or existence, but do not review unrelated code.
   - Limit repository access to files directly relevant to the changes.

3. **Evaluate Best Practices**:
   - Ensure the changed lines follow best practices for the relevant language or framework (e.g., idiomatic code, clear naming, proper error handling).
   - Check for adherence to common standards, such as documentation or formatting, but only for the modified code.
   - Identify any anti-patterns or suboptimal changes in the diffs.

4. **Security Review**:
   - Identify potential security risks in the changed lines, such as hard-coded credentials, insecure configurations, or language-specific vulnerabilities.
   - Suggest mitigations for any security issues in the modified code.

5. **Maintainability and Clarity**:
   - Assess whether the changed lines are clear and maintainable. Suggest improvements like adding comments or refactoring only for the modified code.
   - Check for redundant or obsolete changes (e.g., commented-out code in the diffs) and recommend removal or documentation.

6. **Potential Issues**:
   - Highlight risks in the changed lines, such as potential bugs, breaking changes, or compatibility issues.
   - Note any assumptions in the modified code that may not hold (e.g., unverified resources or edge cases).

7. **Actionable Feedback**:
   - Provide specific recommendations for fixes or improvements, referencing file names and line numbers from the diffs.
   - If the changes are correct and beneficial, acknowledge their value (e.g., improved functionality or clarity).
   - Prioritize critical issues (e.g., bugs, security risks) over stylistic improvements.

8. **Formatting**:
   - Structure your response with clear sections: **Summary**, **Issues Found**, **Recommendations**, **Benefits**, and **Questions/Clarifications**.
   - Reference specific files and line numbers from the diffs when discussing issues or suggestions.
   - Use bullet points for clarity and conciseness.

**Additional Notes**:
- If the PR body is empty or vague, infer the intent from the title and diffs, but note any assumptions and suggest clarifying with the PR author.
- If the changes reference undefined variables, functions, or resources, include a request for their definitions in the **Questions/Clarifications** section.
- The changes may involve any programming language or configuration format (e.g., Terraform, Python, JavaScript, YAML). Tailor the review to the specific language/format based on the file extensions and diff content.

**Output Format**:
- **Summary**: Brief overview of the PR changes and their inferred purpose.
- **Issues Found**: List any problems (syntax, security, best practices) in the changed lines, with file and line references.
- **Recommendations**: Actionable suggestions to address issues or improve the changed code.
- **Benefits**: Positive aspects of the changes (if any).
- **Questions/Clarifications**: Any information needed from the PR author or repository to understand the changes (e.g., definitions of referenced variables).
".

Definition cody_prompt (pr_details : string) : string :=
  prompt_head +:+ pr_details +:+ prompt_tail.

(** Truth value of what [os.environ.get] returned: [None] and the empty
    string are false. *)
Definition truthy (o : option string) : bool :=
  match o with
  | Some s => negb (String.eqb s "")
  | None => false
  end.

(** [a or b] *)
Definition py_or (a b : option string) : option string :=
  if truthy a then a else b.

(** [f"{x}"] for a value that is a string or None. *)
Definition str_opt (o : option string) : string := default "None" o.

(** [x.split("/")] where [x] came from [os.environ.get]. *)
Definition env_split (x : option string) : M (list string) :=
  match x with
  | Some s => ret (split_on slash s)
  | None => raise (attribute_error "NoneType" "split")
  end.

Definition main (w : world) (environ : gmap string string) : M unit :=
  if decide (environ !! "GITHUB_EVENT_NAME" = Some "pull_request") then
    let token := py_or (environ !! "GITHUB_TOKEN") (environ !! "GH_TOKEN") in
    (if negb (truthy token) then
       print Stdout "GitHub authentication token is missing. Please set GITHUB_TOKEN or GH_TOKEN." ;;;
       exit 1
     else ret tt) ;;;
    let cody_endpoint := environ !! "SRC_ENDPOINT" in
    (if negb (truthy cody_endpoint)
        || negb (truthy (environ !! "SRC_ACCESS_TOKEN")) then
       print Stdout "Missing required Cody environment variables: SRC_ENDPOINT and/or SRC_ACCESS_TOKEN" ;;;
       exit 1
     else ret tt) ;;;
    let token := str_opt token in
    let api_url := default "https://api.github.com" (environ !! "GITHUB_API_URL") in
    repo_host <- match urlparse_hostname w api_url with
                 | inl e => raise e
                 | inr host => ret host
                 end ;;
    parts <- env_split (environ !! "GITHUB_REPOSITORY") ;;
    names <- match parts with
             | [repo_owner; repo_name] => ret (repo_owner, repo_name)
             | [] | [_] =>
                 raise (OtherException "ValueError"
                          ("not enough values to unpack (expected 2, got "
                             +:+ str_int (Z.of_nat (length parts)) +:+ ")"))
             | _ => raise (OtherException "ValueError"
                             "too many values to unpack (expected 2)")
             end ;;
    let '(repo_owner, repo_name) := names in
    ref_parts <- env_split (environ !! "GITHUB_REF") ;;
    pr_number <- match ref_parts !! 2%nat with
                 | Some n => ret n
                 | None => raise (OtherException "IndexError" "list index out of range")
                 end ;;
    pr_details <- get_pull_request_details w api_url repo_owner repo_name pr_number token ;;
    comment <- execute_cody_cli w
                 (str_opt repo_host +:+ "/" +:+ repo_owner +:+ "/" +:+ repo_name)
                 (cody_prompt pr_details) ;;
    add_pr_comment w api_url repo_owner repo_name pr_number token comment ;;;
    ret tt
  else
    print Stdout "Script intended to run only in GitHub Pull Request context" ;;;
    exit 1.

(** * Vocabulary of the proofs *)

(** ** The fetch stage, one [try] statement at a time *)

(** The statuses [raise_for_status] rejects. *)
Definition error_status (r : response) : bool :=
  ((400 <=? status_code r) && (status_code r <? 600))%Z.

(** One [try] statement of [get_pull_request_details]: the GET, the
    status check, the decoding, then [render] on the decoded body. *)
Definition fetch_block (w : world) (u : string) (h : headers)
    (result : string) (render : json -> M string) : M string :=
  try_except
    (response <- http_get w u h ;;
     raise_for_status response ;;;
     data <- response_json response ;;
     render data)
    (except_RequestException (on_request_exception result)).

(** Lines 33-35 on the decoded pull request. *)
Definition render_pr (result : string) (pr_data : json) : M string :=
  match pr_data with
  | JObject d =>
      let result := result +:+ ("--- Pull Request Details ---" +:+ LF) in
      let result := result +:+ ("Title: " +:+ py_str (dict_get d "title") +:+ LF) in
      ret (result +:+ ("Body:" +:+ LF +:+ py_str (dict_get d "body") +:+ LF +:+ LF))
  | JArray _ => raise (attribute_error "list" "get")
  end.

(** Lines 50-57 on the decoded list of files. *)
Definition render_files (result : string) (files_data : json) : M string :=
  let result := result +:+ ("--- Changed Files ---" +:+ LF) in
  match files_data with
  | JArray l => ret (fold_left append_file l result)
  | JObject d =>
      if decide (d = ∅) then ret result
      else raise (attribute_error "str" "get")
  end.

(** A renderer returns a text or lets a non-request exception out, and
    has no effect of its own. *)
Definition plain (render : json -> M string) : Prop :=
  forall j, (exists s, render j = ret s)
            \/ (exists cls msg, render j = raise (OtherException cls msg)).

(** What one [try] statement does, by the answer to its GET. *)
Definition fetch_block_spec (w : world) (u : string) (h : headers)
    (result : string) (render : json -> M string) (m : M string) : Prop :=
  match requests_get w u h with
  | Replied r =>
      if error_status r then
        m = ([HttpGet u h;
              Output Stdout ("Error fetching files data: " +:+ http_error_msg r);
              Output Stdout ("API Response: " +:+ text r)], Exit 1)
      else
        match content r with
        | JsonBody j => m = ([HttpGet u h], ending (render j))
        | NotJson decode_error =>
            m = ([HttpGet u h;
                  Output Stdout ("Error fetching files data: " +:+ decode_error)],
                 Ret result)
        | JsonFails cls msg => m = ([HttpGet u h], Raise (OtherException cls msg))
        end
  | Failed msg (Some resp) =>
      m = ([HttpGet u h;
            Output Stdout ("Error fetching files data: " +:+ msg);
            Output Stdout ("API Response: " +:+ text resp)], Exit 1)
  | Failed msg None =>
      m = ([HttpGet u h;
            Output Stdout ("Error fetching files data: " +:+ msg)], Ret result)
  | Crashed cls msg => m = ([HttpGet u h], Raise (OtherException cls msg))
  end.

(** ** Kinds of events and properties of traces *)

Definition is_output (e : event) : Prop :=
  match e with
  | Output _ _ | OutputJson _ _ => True
  | _ => False
  end.

Definition is_stdout (e : event) : Prop :=
  match e with
  | Output Stdout _ | OutputJson Stdout _ => True
  | _ => False
  end.

(** The events of the fetch stage: its two GETs, with the token in the
    Authorization header, and lines on standard output. *)
Definition fetch_event (api_url owner repo pr_number token : string)
    (e : event) : Prop :=
  e = HttpGet (pr_api_url api_url owner repo pr_number) (fetch_headers token)
  \/ e = HttpGet (files_api_url api_url owner repo pr_number) (fetch_headers token)
  \/ is_stdout e.

Definition is_run (e : event) : bool :=
  match e with Run _ => true | _ => false end.

Definition is_request (e : event) : bool :=
  match e with HttpGet _ _ | HttpPost _ _ _ => true | _ => false end.

Definition on_stderr (e : event) : bool :=
  match e with Output Stderr _ | OutputJson Stderr _ => true | _ => false end.

(** The review tool was started. *)
Definition ran_tool (t : list event) : bool := existsb is_run t.

(** An HTTP request was sent. *)
Definition sent_request (t : list event) : bool := existsb is_request t.

(** Something was written to standard error. *)
Definition wrote_stderr (t : list event) : bool := existsb on_stderr t.

(** The token a request authenticates with is [t]. *)
Definition uses_token (t : string) (e : event) : Prop :=
  match e with
  | HttpGet _ h => h = fetch_headers t
  | HttpPost _ h _ => h = comment_headers t
  | _ => True
  end.

Definition unset_or_empty (o : option string) : Prop := o = None \/ o = Some "".

(** ** The driver after its checks *)

(** Lines 164-226: the three stages in sequence, with the driver's
    variables as parameters. *)
Definition pipeline (w : world) (api_url : string) (repo_host : option string)
    (repo_owner repo_name pr_number token : string) : M unit :=
  pr_details <- get_pull_request_details w api_url repo_owner repo_name pr_number token ;;
  comment <- execute_cody_cli w
               (str_opt repo_host +:+ "/" +:+ repo_owner +:+ "/" +:+ repo_name)
               (cody_prompt pr_details) ;;
  add_pr_comment w api_url repo_owner repo_name pr_number token comment ;;;
  ret tt.

(** [token] (line 138) and [api_url] (line 153). *)
Definition env_token (environ : gmap string string) : option string :=
  py_or (environ !! "GITHUB_TOKEN") (environ !! "GH_TOKEN").

Definition env_api_url (environ : gmap string string) : string :=
  default "https://api.github.com" (environ !! "GITHUB_API_URL").

Definition token_missing_message : string :=
  "GitHub authentication token is missing. Please set GITHUB_TOKEN or GH_TOKEN.".

Definition cody_missing_message : string :=
  "Missing required Cody environment variables: SRC_ENDPOINT and/or SRC_ACCESS_TOKEN".

(** ** The report in closed form, and the golden text *)

(** A changed file as the report shows it: its name and, when the API
    gave one, its patch. *)
Record changed_file : Type := mkFile {
  file_name : string;
  file_patch : option string
}.

Definition delimiter : string := "--------------------------------".

(** What lines 52-57 append for one file; the closing delimiter has no
    line feed after it (line 57). *)
Definition rendered_file (f : changed_file) : string :=
  "File Name: " +:+ file_name f +:+ LF
  +:+ "Patch:" +:+ LF
  +:+ delimiter +:+ LF
  +:+ default "No patch data available." (file_patch f) +:+ LF
  +:+ delimiter.

(** The whole text that lines 33-57 build, in closed form. *)
Definition rendered_report (title body : string) (files : list changed_file) : string :=
  "--- Pull Request Details ---" +:+ LF
  +:+ "Title: " +:+ title +:+ LF
  +:+ "Body:" +:+ LF +:+ body +:+ LF +:+ LF
  +:+ "--- Changed Files ---" +:+ LF
  +:+ foldr (fun f rest => rendered_file f +:+ rest) "" files.

(** The golden text for one file, in the words of the specification:
    the [File Name:] line, the [Patch:] label, and the patch text (or the
    placeholder) between two delimiter lines. *)
Definition golden_file (f : changed_file) : string :=
  "File Name: " +:+ file_name f +:+ LF
  +:+ "Patch:" +:+ LF
  +:+ delimiter +:+ LF
  +:+ default "No patch data available." (file_patch f) +:+ LF
  +:+ delimiter +:+ LF.

(** The golden text of a report, in the words of the specification: the
    pull-request header with the title and the body, the changed-files
    header, then the files in list order. *)
Definition golden_report (title body : string) (files : list changed_file) : string :=
  "--- Pull Request Details ---" +:+ LF
  +:+ "Title: " +:+ title +:+ LF
  +:+ "Body:" +:+ LF +:+ body +:+ LF +:+ LF
  +:+ "--- Changed Files ---" +:+ LF
  +:+ foldr (fun f rest => golden_file f +:+ rest) "" files.

(** What a decoded file entry shows: [filename] formatted by [str()],
    and the [patch] if the key is there. *)
Definition file_of (d : gmap string pyval) : changed_file :=
  {| file_name := py_str (dict_get d "filename");
     file_patch := py_str <$> d !! "patch" |}.

(** The lines of the report for a file named [name] whose patch position
    holds [patch]. *)
Definition file_section (name patch : string) : string :=
  "File Name: " +:+ name +:+ LF
  +:+ "Patch:" +:+ LF
  +:+ delimiter +:+ LF
  +:+ patch +:+ LF
  +:+ delimiter.

(** ** Example surroundings *)

(** [c.isspace()] for an ASCII character. *)
Definition is_space (c : ascii) : bool :=
  let n := nat_of_ascii c in
  ((n =? 32) || ((9 <=? n) && (n <=? 13)) || ((28 <=? n) && (n <=? 31)))%nat.

Fixpoint lstrip (s : string) : string :=
  match s with
  | String c rest => if is_space c then lstrip rest else s
  | EmptyString => EmptyString
  end.

(** [s.strip()] on text whose white space is ASCII. *)
Definition ascii_strip (s : string) : string :=
  String.rev (lstrip (String.rev (lstrip s))).

Definition demo_api : string := "https://api.github.com".

Definition demo_hostname (u : string) : exn + option string :=
  if String.eqb u demo_api then inr (Some "api.github.com") else inr None.

Definition demo_pr_url : string := pr_api_url demo_api "acme" "widgets" "42".
Definition demo_files_url : string := files_api_url demo_api "acme" "widgets" "42".

(** A pull request whose body is null. *)
Definition demo_pr : gmap string pyval :=
  {[ "title" := PyStr "Fix typo"; "body" := PyNone ]}.

(** Three changed files: with a patch, without the key, with a null patch. *)
Definition demo_files : list (gmap string pyval) :=
  [ {[ "filename" := PyStr "a.py"; "patch" := PyStr "@@ -1 +1 @@" ]};
    {[ "filename" := PyStr "logo.png" ]};
    {[ "filename" := PyStr "big.txt"; "patch" := PyNone ]} ].

Definition pr_ok : response :=
  mkResponse 200 "OK" demo_pr_url "(pull request)" (JsonBody (JObject demo_pr)).

Definition files_ok : response :=
  mkResponse 200 "OK" demo_files_url "(files)" (JsonBody (JArray demo_files)).

Definition not_found (u : string) : response :=
  mkResponse 404 "Not Found" u "(not found)" (JsonBody (JObject ∅)).

(** A redirect without a Location header, which requests hands back as
    it is, here with a JSON body. *)
Definition found_elsewhere : response :=
  mkResponse 302 "Found" demo_pr_url "(moved)" (JsonBody (JObject demo_pr)).

Definition created : response :=
  mkResponse 201 "Created" (comments_url demo_api "acme" "widgets" "42")
    "(comment)" (JsonBody (JObject {[ "id" := PyOther "1" ]})).

Definition make_world (pr_reply files_reply : http_reply) (ran : run_reply)
    (post_reply : http_reply) : world :=
  {| requests_get := fun u _ => if String.eqb u demo_pr_url then pr_reply else files_reply;
     requests_post := fun _ _ _ => post_reply;
     subprocess_run := fun _ => ran;
     urlparse_hostname := demo_hostname;
     str_strip := ascii_strip |}.

(** Everything answers as hoped. *)
Definition demo_world : world :=
  make_world (Replied pr_ok) (Replied files_ok)
    (Completed 0 (" Looks good." +:+ LF) "") (Replied created).

(** No connection: both GETs raise a ConnectionError, which carries no
    response. *)
Definition offline_world : world :=
  make_world (Failed "Connection refused" None) (Failed "Connection refused" None)
    (Completed 0 "Nothing to review." "") (Replied created).

(** The pull request does not exist. *)
Definition not_found_world : world :=
  make_world (Replied (not_found demo_pr_url)) (Replied (not_found demo_files_url))
    (Completed 0 "Nothing to review." "") (Replied created).

(** The pull-request GET is answered with status 302. *)
Definition redirect_world : world :=
  make_world (Replied found_elsewhere) (Replied files_ok)
    (Completed 0 "Looks good." "") (Replied created).

(** The review tool fails with status 3. *)
Definition failing_tool_world : world :=
  make_world (Replied pr_ok) (Replied files_ok)
    (Completed 3 "" "quota exceeded") (Replied created).

(** The comment is refused. *)
Definition forbidden_world : world :=
  make_world (Replied pr_ok) (Replied files_ok) (Completed 0 "Looks good." "")
    (Replied (mkResponse 403 "Forbidden" "" "(forbidden)" (JsonBody (JObject ∅)))).

Definition demo_env : gmap string string :=
  {[ "GITHUB_EVENT_NAME" := "pull_request";
     "GITHUB_TOKEN" := "t0k";
     "GH_TOKEN" := "other";
     "SRC_ENDPOINT" := "https://sourcegraph.example";
     "SRC_ACCESS_TOKEN" := "sgp";
     "GITHUB_REPOSITORY" := "acme/widgets";
     "GITHUB_REF" := "refs/pull/42/merge" ]}.

Definition push_env : gmap string string :=
  <[ "GITHUB_EVENT_NAME" := "push" ]> demo_env.

(** ** Vocabulary of the further properties *)

(** [s.count(sep)] for a character. *)
Fixpoint count_sep (sep : ascii) (s : string) : nat :=
  match s with
  | EmptyString => 0
  | String c rest => (if Ascii.eqb c sep then 1 else 0) + count_sep sep rest
  end.

(** [sep.join(pieces)] for a one-character separator. *)
Fixpoint join_with (sep : ascii) (pieces : list string) : string :=
  match pieces with
  | [] => EmptyString
  | [piece] => piece
  | piece :: rest => piece +:+ String sep (join_with sep rest)
  end.

(** The checks of the driver pass and its variables parse (lines
    136-162), with the values the stages are then run with. *)
Definition driver_ready (w : world) (environ : gmap string string)
    (repo_host : option string) (repository ref owner name number : string) : Prop :=
  environ !! "GITHUB_EVENT_NAME" = Some "pull_request"
  /\ truthy (env_token environ) = true
  /\ truthy (environ !! "SRC_ENDPOINT") = true
  /\ truthy (environ !! "SRC_ACCESS_TOKEN") = true
  /\ urlparse_hostname w (env_api_url environ) = inr repo_host
  /\ environ !! "GITHUB_REPOSITORY" = Some repository
  /\ split_on slash repository = [owner; name]
  /\ environ !! "GITHUB_REF" = Some ref
  /\ split_on slash ref !! 2%nat = Some number.

(** The checks up to the hostname (lines 136-156). *)
Definition checks_pass (w : world) (environ : gmap string string)
    (repo_host : option string) : Prop :=
  environ !! "GITHUB_EVENT_NAME" = Some "pull_request"
  /\ truthy (env_token environ) = true
  /\ truthy (environ !! "SRC_ENDPOINT") = true
  /\ truthy (environ !! "SRC_ACCESS_TOKEN") = true
  /\ urlparse_hostname w (env_api_url environ) = inr repo_host.

Definition is_post (e : event) : bool :=
  match e with HttpPost _ _ _ => true | _ => false end.

(** A call to the outside: an HTTP request or the subprocess. *)
Definition is_call (e : event) : bool := is_request e || is_run e.

(** The calls to the outside among the events, in order. *)
Definition calls (t : list event) : list event := List.filter is_call t.

(** A comment was posted. *)
Definition posted (t : list event) : bool := existsb is_post t.

(** The failure of a GET has a response attached: a status that
    [raise_for_status] rejects, or an exception with a response. *)
Definition carries_response (reply : http_reply) : Prop :=
  match reply with
  | Replied r => error_status r = true
  | Failed _ (Some _) => True
  | Failed _ None => False
  | Crashed _ _ => False
  end.

(** The pull-request GET finds no connection, the files GET is answered. *)
Definition half_offline_world : world :=
  make_world (Failed "Connection refused" None) (Replied files_ok)
    (Completed 0 "Looks good." "") (Replied created).

(** GITHUB_REPOSITORY without an owner, a GITHUB_REF that is a bare
    branch name, and no GITHUB_REPOSITORY at all. *)
Definition no_owner_env : gmap string string :=
  <[ "GITHUB_REPOSITORY" := "widgets" ]> demo_env.

Definition bare_ref_env : gmap string string :=
  <[ "GITHUB_REF" := "main" ]> demo_env.

Definition no_repository_env : gmap string string :=
  delete "GITHUB_REPOSITORY" demo_env.

(** The pull-request GET is answered with a JSON array. *)
Definition array_world : world :=
  make_world
    (Replied (mkResponse 200 "OK" demo_pr_url "(array)" (JsonBody (JArray []))))
    (Replied files_ok) (Completed 0 "Looks good." "") (Replied created).

(** The exception that leaves [add_pr_comment]: the one that the call of
    [requests.post], or the decoding of its answer, raises when it is not
    a RequestException. *)
Definition escaping (reply : http_reply) : option exn :=
  match reply with
  | Replied r =>
      match content r with
      | JsonFails cls msg => Some (OtherException cls msg)
      | _ => None
      end
  | Failed _ _ => None
  | Crashed cls msg => Some (OtherException cls msg)
  end.

(** How a run ends after the POST. *)
Definition after_post {A} (reply : http_reply) (v : A) : outcome A :=
  match escaping reply with
  | Some e => Raise e
  | None => Ret v
  end.

(** A run that ends with an exception that nothing caught. *)
Definition uncaught {A} (o : outcome A) : bool :=
  match o with
  | Raise _ => true
  | _ => false
  end.

(** Standard error at the end of a run: what the program printed there,
    and the traceback that the interpreter writes for an uncaught
    exception. *)
Definition stderr_written {A} (m : M A) : bool :=
  wrote_stderr (trace m) || uncaught (ending m).

(** The comment is created, but the answer is not JSON. *)
Definition created_not_json : response :=
  mkResponse 201 "Created" (comments_url demo_api "acme" "widgets" "42")
    "(not json)" (NotJson "Expecting value: line 1 column 1 (char 0)").

Definition garbled_world : world :=
  make_world (Replied pr_ok) (Replied files_ok) (Completed 0 "Looks good." "")
    (Replied created_not_json).

(** [requests.post] raises before anything is sent: a header value
    that cannot be encoded. *)
Definition unencodable_world : world :=
  make_world (Replied pr_ok) (Replied files_ok) (Completed 0 "Looks good." "")
    (Crashed "UnicodeEncodeError" "'latin-1' codec can't encode character").

(** * Facts *)

(** ** Facts about the effect monad *)

Section monad_facts.
Context {A B : Type}.
Implicit Types (m : M A) (k : A -> M B).

Lemma bind_Ret t a k :
  bind (t, Ret a) k = (t ++ trace (k a), ending (k a)).
Proof. unfold bind, trace, ending. by destruct (k a). Qed.

Lemma bind_ret_l (a : A) k : bind (ret a) k = k a.
Proof. unfold bind, ret. by destruct (k a). Qed.

Lemma bind_Exit m k c : ending m = Exit c -> bind m k = (trace m, Exit c).
Proof. destruct m as [t o]; simpl; intros ->; reflexivity. Qed.

Lemma bind_Raise m k e : ending m = Raise e -> bind m k = (trace m, Raise e).
Proof. destruct m as [t o]; simpl; intros ->; reflexivity. Qed.

Lemma bind_returns m k a :
  ending m = Ret a -> bind m k = (trace m ++ trace (k a), ending (k a)).
Proof. destruct m as [t o]; simpl; intros ->; apply bind_Ret. Qed.

Lemma in_trace_bind e m k :
  In e (trace (bind m k)) ->
  In e (trace m) \/ exists a, ending m = Ret a /\ In e (trace (k a)).
Proof.
  destruct m as [t [a|c|x]]; [|simpl; auto..].
  rewrite bind_Ret. cbn [trace ending fst snd]. rewrite in_app_iff.
  intros [H|H]; eauto.
Qed.

Lemma Forall_trace_bind (P : event -> Prop) m k :
  Forall P (trace m) -> (forall a, Forall P (trace (k a))) ->
  Forall P (trace (bind m k)).
Proof.
  destruct m as [t [a|c|x]]; [|simpl; auto..].
  intros Ht Hk. rewrite bind_Ret. cbn [trace ending fst snd] in *.
  apply Forall_app; auto.
Qed.



End monad_facts.

Lemma bind_ret_r {A} (m : M A) : bind m ret = m.
Proof.
  destruct m as [t [a|c|x]]; [|reflexivity..].
  rewrite bind_Ret. cbn. by rewrite app_nil_r.
Qed.

(** ** Facts about strings *)

Lemma append_nil_l (b : string) : "" +:+ b = b.
Proof. reflexivity. Qed.

Lemma append_cons (x : ascii) (a b : string) :
  String x a +:+ b = String x (a +:+ b).
Proof. reflexivity. Qed.

Lemma append_assoc (a b c : string) : (a +:+ b) +:+ c = a +:+ (b +:+ c).
Proof.
  induction a as [|x a IH]; [reflexivity|].
  rewrite !append_cons, IH; reflexivity.
Qed.

Lemma append_nil_r (a : string) : a +:+ "" = a.
Proof.
  induction a as [|x a IH]; [reflexivity|].
  rewrite append_cons, IH; reflexivity.
Qed.

(** Splitting [a/b] when [a] has no slash: [a] is the first piece. *)
Lemma split_on_first (sep : ascii) (a b : string) :
  occurs sep a = false ->
  split_on sep (a +:+ String sep b) = a :: split_on sep b.
Proof.
  induction a as [|c a IH].
  - intros _. rewrite append_nil_l. simpl. by rewrite Ascii.eqb_refl.
  - simpl occurs. intros H. apply orb_false_iff in H as [Hc Ha].
    rewrite append_cons. simpl split_on. rewrite Hc, (IH Ha). reflexivity.
Qed.

(** A string without the separator is a single piece. *)
Lemma split_on_none (sep : ascii) (a : string) :
  occurs sep a = false -> split_on sep a = [a].
Proof.
  induction a as [|c a IH]; simpl; [done|].
  intros H. apply orb_false_iff in H as [Hc Ha].
  by rewrite Hc, (IH Ha).
Qed.

(** ** Facts about the fetch stage *)

Lemma raise_for_status_error r :
  error_status r = true ->
  raise_for_status r = raise (RequestException (http_error_msg r) (Some r)).
Proof.
  unfold error_status, raise_for_status, http_error_msg. intros H.
  destruct ((400 <=? status_code r) && (status_code r <? 500))%Z eqn:E4.
  - destruct (str_int (status_code r)); reflexivity.
  - destruct ((500 <=? status_code r) && (status_code r <? 600))%Z eqn:E5.
    + destruct (str_int (status_code r)); reflexivity.
    + exfalso. lia.
Qed.

Lemma raise_for_status_ok r :
  error_status r = false -> raise_for_status r = ret tt.
Proof.
  unfold error_status, raise_for_status, http_error_msg. intros H.
  destruct ((400 <=? status_code r) && (status_code r <? 500))%Z eqn:E4;
    [exfalso; lia|].
  destruct ((500 <=? status_code r) && (status_code r <? 600))%Z eqn:E5;
    [exfalso; lia|reflexivity].
Qed.

Lemma get_pull_request_details_blocks w api_url owner repo pr_number token :
  get_pull_request_details w api_url owner repo pr_number token =
    (result <- fetch_block w (pr_api_url api_url owner repo pr_number)
                 (fetch_headers token) "" (render_pr "") ;;
     result <- fetch_block w (files_api_url api_url owner repo pr_number)
                 (fetch_headers token) result (render_files result) ;;
     ret result).
Proof. reflexivity. Qed.

Lemma render_pr_plain result : plain (render_pr result).
Proof. intros [d|l]; simpl; eauto. Qed.

Lemma render_files_plain result : plain (render_files result).
Proof.
  intros [d|l]; unfold render_files; [|eauto].
  destruct (decide (d = ∅)); eauto.
Qed.

Lemma fetch_block_cases w u h result render :
  plain render ->
  fetch_block_spec w u h result render (fetch_block w u h result render).
Proof.
  intros Hr. unfold fetch_block_spec, fetch_block, http_get.
  destruct (requests_get w u h) as [r|msg [resp|]|cls msg]; [|reflexivity..].
  destruct (error_status r) eqn:Es.
  - cbn. rewrite (raise_for_status_error r Es). reflexivity.
  - cbn. rewrite (raise_for_status_ok r Es). unfold response_json. cbn.
    destruct (content r) as [j|err|cls msg]; [|reflexivity..].
    cbn. destruct (Hr j) as [[s ->]|(cls & msg & ->)]; reflexivity.
Qed.

Lemma fetch_block_trace w u h result render :
  plain render ->
  Forall (fun e => e = HttpGet u h \/ is_stdout e)
    (trace (fetch_block w u h result render)).
Proof.
  intros Hr. pose proof (fetch_block_cases w u h result render Hr) as H.
  unfold fetch_block_spec in H.
  destruct (requests_get w u h) as [r|msg [resp|]|cls msg];
    [destruct (error_status r); [|destruct (content r)]|..];
    rewrite H; cbn [trace fst]; repeat constructor; auto; exact I.
Qed.

Lemma fetch_block_error_status w u h result render r :
  plain render ->
  requests_get w u h = Replied r -> error_status r = true ->
  ending (fetch_block w u h result render) = Exit 1.
Proof.
  intros Hr Hg He. pose proof (fetch_block_cases w u h result render Hr) as H.
  unfold fetch_block_spec in H. rewrite Hg, He in H. by rewrite H.
Qed.

Lemma fetch_events w api_url owner repo pr_number token :
  Forall (fetch_event api_url owner repo pr_number token)
    (trace (get_pull_request_details w api_url owner repo pr_number token)).
Proof.
  rewrite get_pull_request_details_blocks.
  apply Forall_trace_bind.
  - eapply Forall_impl; [apply fetch_block_trace, render_pr_plain|].
    unfold fetch_event; intros e [->|H]; auto.
  - intros result. apply Forall_trace_bind; [|intros; constructor].
    eapply Forall_impl; [apply fetch_block_trace, render_files_plain|].
    unfold fetch_event; intros e [->|H]; auto.
Qed.

(** A GET of the fetch stage that is answered with a rejected status
    ends the stage with [exit(1)]. *)
Lemma fetch_error_status_exits w api_url owner repo pr_number token u h r :
  In (HttpGet u h)
     (trace (get_pull_request_details w api_url owner repo pr_number token)) ->
  requests_get w u h = Replied r -> error_status r = true ->
  ending (get_pull_request_details w api_url owner repo pr_number token) = Exit 1.
Proof.
  rewrite get_pull_request_details_blocks. intros Hin Hg He.
  apply in_trace_bind in Hin as [Hin|(r1 & Hr1 & Hin)].
  - pose proof (fetch_block_trace w (pr_api_url api_url owner repo pr_number)
                  (fetch_headers token) "" (render_pr "") (render_pr_plain "")) as Ht.
    rewrite List.Forall_forall in Ht. destruct (Ht _ Hin) as [Heq|[]].
    injection Heq as -> ->.
    erewrite bind_Exit; [reflexivity|].
    eapply fetch_block_error_status; eauto using render_pr_plain.
  - rewrite (bind_returns _ _ _ Hr1). cbn [ending snd].
    apply in_trace_bind in Hin as [Hin|(r2 & Hr2 & [])].
    pose proof (fetch_block_trace w (files_api_url api_url owner repo pr_number)
                  (fetch_headers token) r1 (render_files r1)
                  (render_files_plain r1)) as Ht.
    rewrite List.Forall_forall in Ht. destruct (Ht _ Hin) as [Heq|[]].
    injection Heq as -> ->.
    erewrite bind_Exit; [reflexivity|].
    eapply fetch_block_error_status; eauto using render_files_plain.
Qed.

(** ** Facts about the review and publish stages *)

Lemma execute_cody_cli_cases w repo prompt :
  execute_cody_cli w repo prompt =
    match subprocess_run w (command_list repo prompt) with
    | Completed returncode stdout stderr =>
        if (returncode =? 0)%Z then
          ([Run (command_list repo prompt)], Ret (str_strip w stdout))
        else
          ([Run (command_list repo prompt);
            Output Stdout (str_strip w stderr);
            Output Stderr (LF +:+ "--- Command failed! ---")], Exit returncode)
    | NotFound _ =>
        ([Run (command_list repo prompt);
          Output Stderr "Error: The command 'cody' was not found.";
          Output Stderr "Please ensure 'cody' is installed and in your system's PATH."],
         Exit 1)
    | RunError _ msg =>
        ([Run (command_list repo prompt);
          Output Stderr ("An unexpected error occurred: " +:+ msg)], Exit 1)
    end.
Proof.
  unfold execute_cody_cli, run.
  destruct (subprocess_run w (command_list repo prompt)) as [rc out err|msg|cls msg];
    [destruct (rc =? 0)%Z eqn:E; cbn; rewrite E|..]; reflexivity.
Qed.

Lemma add_pr_comment_cases w api_url owner repo pr_number token comment_body :
  let u := comments_url api_url owner repo pr_number in
  let h := comment_headers token in
  add_pr_comment w api_url owner repo pr_number token comment_body =
    match requests_post w u h comment_body with
    | Replied r =>
        if (status_code r =? 201)%Z then
          match content r with
          | JsonBody j =>
              ([HttpPost u h comment_body;
                Output Stdout "Comment added successfully!"], Ret (Some j))
          | NotJson decode_error =>
              ([HttpPost u h comment_body;
                Output Stdout "Comment added successfully!";
                Output Stdout ("An error occurred: " +:+ decode_error)], Ret None)
          | JsonFails cls msg =>
              ([HttpPost u h comment_body;
                Output Stdout "Comment added successfully!"],
               Raise (OtherException cls msg))
          end
        else
          match content r with
          | JsonBody j =>
              ([HttpPost u h comment_body;
                Output Stdout ("Failed to add comment. Status code: "
                                 +:+ str_int (status_code r));
                OutputJson Stdout j], Ret None)
          | NotJson decode_error =>
              ([HttpPost u h comment_body;
                Output Stdout ("Failed to add comment. Status code: "
                                 +:+ str_int (status_code r));
                Output Stdout ("An error occurred: " +:+ decode_error)], Ret None)
          | JsonFails cls msg =>
              ([HttpPost u h comment_body;
                Output Stdout ("Failed to add comment. Status code: "
                                 +:+ str_int (status_code r))],
               Raise (OtherException cls msg))
          end
    | Failed msg _ =>
        ([HttpPost u h comment_body;
          Output Stdout ("An error occurred: " +:+ msg)], Ret None)
    | Crashed cls msg => ([HttpPost u h comment_body], Raise (OtherException cls msg))
    end.
Proof.
  intros u h. unfold add_pr_comment, http_post, response_json. fold u h.
  destruct (requests_post w u h comment_body) as [r|msg resp|cls msg];
    [|reflexivity..].
  cbn. destruct (status_code r =? 201)%Z; cbn;
    destruct (content r); reflexivity.
Qed.

Lemma cody_events w repo prompt :
  Forall (fun e => e = Run (command_list repo prompt) \/ is_output e)
    (trace (execute_cody_cli w repo prompt)).
Proof.
  rewrite execute_cody_cli_cases.
  destruct (subprocess_run w (command_list repo prompt)) as [rc out err|msg|cls msg];
    [destruct (rc =? 0)%Z|..]; cbn [trace fst];
    repeat constructor; auto; exact I.
Qed.

Lemma publish_events w api_url owner repo pr_number token comment_body :
  Forall (fun e => e = HttpPost (comments_url api_url owner repo pr_number)
                         (comment_headers token) comment_body
                   \/ is_stdout e)
    (trace (add_pr_comment w api_url owner repo pr_number token comment_body)).
Proof.
  rewrite add_pr_comment_cases.
  destruct (requests_post _ _ _ _) as [r|msg resp|cls msg];
    [destruct (status_code r =? 201)%Z; destruct (content r)|..];
    cbn [trace fst]; repeat constructor; auto; exact I.
Qed.

(** ** Facts about the driver *)

(** The driver reaches the stages once the checks pass and the variables
    parse. *)
Lemma main_pipeline w environ repo_host repository ref repo_owner repo_name pr_number :
  environ !! "GITHUB_EVENT_NAME" = Some "pull_request" ->
  truthy (env_token environ) = true ->
  truthy (environ !! "SRC_ENDPOINT") = true ->
  truthy (environ !! "SRC_ACCESS_TOKEN") = true ->
  urlparse_hostname w (env_api_url environ) = inr repo_host ->
  environ !! "GITHUB_REPOSITORY" = Some repository ->
  split_on slash repository = [repo_owner; repo_name] ->
  environ !! "GITHUB_REF" = Some ref ->
  split_on slash ref !! 2%nat = Some pr_number ->
  main w environ =
    pipeline w (env_api_url environ) repo_host repo_owner repo_name pr_number
      (str_opt (env_token environ)).
Proof.
  unfold main, env_token, env_api_url.
  intros Hev Htok Hend Hacc Hhost Hrepo Hsplit Href Hpr.
  rewrite decide_True by exact Hev.
  rewrite Htok, Hend, Hacc, Hhost, Hrepo, Href.
  unfold env_split. cbn [negb orb].
  rewrite !bind_ret_l, Hsplit, !bind_ret_l, Hpr, bind_ret_l.
  reflexivity.
Qed.

(** Either the driver stops in its checks, having done nothing but print
    on standard output, or it runs the three stages. *)
Lemma main_dichotomy w environ :
  Forall is_stdout (trace (main w environ))
  \/ exists repo_host repo_owner repo_name pr_number,
       main w environ =
         pipeline w (env_api_url environ) repo_host repo_owner repo_name
           pr_number (str_opt (env_token environ)).
Proof.
  destruct (decide (environ !! "GITHUB_EVENT_NAME" = Some "pull_request")) as [Hev|Hev];
    [|left; unfold main; rewrite decide_False by exact Hev;
      repeat constructor].
  destruct (truthy (env_token environ)) eqn:Htok;
    [|left; unfold main; rewrite decide_True by exact Hev;
      unfold env_token in Htok; rewrite Htok; repeat constructor].
  destruct (truthy (environ !! "SRC_ENDPOINT")) eqn:Hend;
    [|left; unfold main; rewrite decide_True by exact Hev;
      unfold env_token in Htok; rewrite Htok, Hend; repeat constructor].
  destruct (truthy (environ !! "SRC_ACCESS_TOKEN")) eqn:Hacc;
    [|left; unfold main; rewrite decide_True by exact Hev;
      unfold env_token in Htok; rewrite Htok, Hend, Hacc; repeat constructor].
  destruct (urlparse_hostname w (env_api_url environ)) as [e|repo_host] eqn:Hhost;
    [left; unfold main; rewrite decide_True by exact Hev;
      unfold env_token, env_api_url in *; rewrite Htok, Hend, Hacc, Hhost;
      constructor|].
  destruct (environ !! "GITHUB_REPOSITORY") as [repository|] eqn:Hrepo;
    [|left; unfold main; rewrite decide_True by exact Hev;
      unfold env_token, env_api_url in *; rewrite Htok, Hend, Hacc, Hhost, Hrepo;
      constructor].
  destruct (split_on slash repository) as [|repo_owner [|repo_name [|x l]]] eqn:Hsplit;
    [left; unfold main; rewrite decide_True by exact Hev;
      unfold env_token, env_api_url in *; rewrite Htok, Hend, Hacc, Hhost, Hrepo;
      cbn; rewrite Hsplit; constructor..| |
     left; unfold main; rewrite decide_True by exact Hev;
      unfold env_token, env_api_url in *; rewrite Htok, Hend, Hacc, Hhost, Hrepo;
      cbn; rewrite Hsplit; constructor].
  destruct (environ !! "GITHUB_REF") as [ref|] eqn:Href;
    [|left; unfold main; rewrite decide_True by exact Hev;
      unfold env_token, env_api_url in *; rewrite Htok, Hend, Hacc, Hhost, Hrepo, Href;
      cbn; rewrite Hsplit; constructor].
  destruct (split_on slash ref !! 2%nat) as [pr_number|] eqn:Hpr;
    [|left; unfold main; rewrite decide_True by exact Hev;
      unfold env_token, env_api_url in *; rewrite Htok, Hend, Hacc, Hhost, Hrepo, Href;
      cbn; rewrite Hsplit; cbn; rewrite Hpr; constructor].
  right. exists repo_host, repo_owner, repo_name, pr_number.
  eapply main_pipeline; eauto.
Qed.


Lemma append_file_rendered result d :
  append_file result d = result +:+ rendered_file (file_of d).
Proof.
  unfold append_file, rendered_file, file_of, dict_get_or, delimiter.
  cbn [file_name file_patch].
  replace (py_str (default (PyStr "No patch data available.") (d !! "patch")))
    with (default "No patch data available." (py_str <$> d !! "patch"))
    by (destruct (d !! "patch"); reflexivity).
  rewrite !append_assoc. reflexivity.
Qed.

Lemma fold_append_file_rendered files result :
  fold_left append_file files result =
    result +:+ foldr (fun f rest => rendered_file f +:+ rest) "" (map file_of files).
Proof.
  revert result. induction files as [|d files IH]; intros result; simpl.
  - by rewrite append_nil_r.
  - rewrite IH, append_file_rendered, append_assoc. reflexivity.
Qed.

(** Both GETs answered with an accepted status and JSON of the expected
    shape: the stage returns the whole report and prints nothing. *)
Lemma fetch_success w api_url owner repo pr_number token rp rf pr files :
  requests_get w (pr_api_url api_url owner repo pr_number) (fetch_headers token)
    = Replied rp ->
  error_status rp = false -> content rp = JsonBody (JObject pr) ->
  requests_get w (files_api_url api_url owner repo pr_number) (fetch_headers token)
    = Replied rf ->
  error_status rf = false -> content rf = JsonBody (JArray files) ->
  get_pull_request_details w api_url owner repo pr_number token =
    ([HttpGet (pr_api_url api_url owner repo pr_number) (fetch_headers token);
      HttpGet (files_api_url api_url owner repo pr_number) (fetch_headers token)],
     Ret (rendered_report (py_str (dict_get pr "title")) (py_str (dict_get pr "body"))
            (map file_of files))).
Proof.
  intros Hp Hps Hpc Hf Hfs Hfc. rewrite get_pull_request_details_blocks.
  pose proof (fetch_block_cases w (pr_api_url api_url owner repo pr_number)
                (fetch_headers token) "" _ (render_pr_plain "")) as H1. unfold fetch_block_spec in H1. rewrite Hp, Hps, Hpc in H1.
  rewrite H1. cbn [render_pr ending snd ret]. rewrite bind_Ret.
  match goal with |- context [fetch_block w ?u ?h ?r (render_files ?r)] =>
    pose proof (fetch_block_cases w u h r _ (render_files_plain r)) as H2 end.
  unfold fetch_block_spec in H2. rewrite Hf, Hfs, Hfc in H2.
  rewrite bind_ret_r, H2. cbn [render_files ending trace fst snd ret app].
  rewrite fold_append_file_rendered. unfold rendered_report.
  rewrite !append_nil_l, !append_assoc. reflexivity.
Qed.

Lemma truthy_false o : truthy o = false <-> unset_or_empty o.
Proof.
  unfold unset_or_empty. destruct o as [s|]; simpl; [|tauto].
  destruct (String.eqb_spec s ""); simpl; split; intros; try tauto; try congruence.
  - subst; auto.
  - destruct H as [H|H]; congruence.
Qed.

Lemma existsb_false_Forall {T} (p : T -> bool) (l : list T) :
  existsb p l = false <-> Forall (fun x => p x = false) l.
Proof.
  induction l as [|x l IH]; simpl.
  - split; auto.
  - rewrite orb_false_iff, IH. split.
    + intros [? ?]; constructor; auto.
    + inversion 1; auto.
Qed.

(** * The claims *)

(** ** C8: outside a pull request nothing is done *)

(** C8.  When GITHUB_EVENT_NAME is unset or is not [pull_request], the
    driver prints one message on standard output and calls [exit(1)]; that
    printed line is the whole trace, so no HTTP request is sent and the
    review tool is not started. *)
Theorem outside_pull_request_exits (w : world) (environ : gmap string string) :
  environ !! "GITHUB_EVENT_NAME" <> Some "pull_request" ->
  main w environ =
    ([Output Stdout "Script intended to run only in GitHub Pull Request context"],
     Exit 1)
  /\ sent_request (trace (main w environ)) = false
  /\ ran_tool (trace (main w environ)) = false.
Proof.
  intros H. unfold main. rewrite decide_False by exact H. auto.
Qed.

Lemma outside_pull_request_exits_witness :
  push_env !! "GITHUB_EVENT_NAME" <> Some "pull_request"
  /\ main demo_world push_env =
       ([Output Stdout "Script intended to run only in GitHub Pull Request context"],
        Exit 1).
Proof.
  assert (H : push_env !! "GITHUB_EVENT_NAME" <> Some "pull_request")
    by (vm_compute; discriminate).
  split; [exact H|].
  exact (proj1 (outside_pull_request_exits demo_world push_env H)).
Defined.

(** ** C4: how the review stage ends *)

(** C4.  Whatever [subprocess.run] answers: a return code other than 0
    ends the process through [exit] with that same code, and a command
    that is not found ends it through [exit(1)]. *)
Theorem execute_cody_cli_exit_codes (w : world) (repo prompt : string) :
  match subprocess_run w (command_list repo prompt) with
  | Completed returncode stdout _ =>
      if (returncode =? 0)%Z
      then ending (execute_cody_cli w repo prompt) = Ret (str_strip w stdout)
      else ending (execute_cody_cli w repo prompt) = Exit returncode
  | NotFound _ => ending (execute_cody_cli w repo prompt) = Exit 1
  | RunError _ _ => ending (execute_cody_cli w repo prompt) = Exit 1
  end.
Proof.
  rewrite execute_cody_cli_cases.
  destruct (subprocess_run w (command_list repo prompt)) as [rc out err|msg|cls msg];
    [destruct (rc =? 0)%Z|..]; reflexivity.
Qed.

(** ** C5: what the publish stage returns *)

(** C5, as the code has it.  [add_pr_comment] never calls [exit].  It
    returns the parsed body exactly when the POST is answered with status
    201 and the body parses as JSON; it returns None for every other
    status, for a body that is not JSON (also at status 201), and for every
    RequestException.  An exception that is not a RequestException, raised
    by [requests.post] or by [json()], is not caught and leaves the
    function. *)
Theorem add_pr_comment_returns (w : world)
    (api_url owner repo pr_number token comment_body : string) :
  let reply := requests_post w (comments_url api_url owner repo pr_number)
                 (comment_headers token) comment_body in
  let returned :=
    ending (add_pr_comment w api_url owner repo pr_number token comment_body) in
  (forall code, returned <> Exit code)
  /\ (forall j, returned = Ret (Some j) <->
         exists r, reply = Replied r /\ status_code r = 201 /\ content r = JsonBody j)
  /\ match reply with
     | Replied r =>
         match content r with
         | JsonBody j => returned = Ret (if (status_code r =? 201)%Z then Some j else None)
         | NotJson _ => returned = Ret None
         | JsonFails cls msg => returned = Raise (OtherException cls msg)
         end
     | Failed _ _ => returned = Ret None
     | Crashed cls msg => returned = Raise (OtherException cls msg)
     end.
Proof.
  intros reply returned. subst reply returned.
  rewrite add_pr_comment_cases.
  destruct (requests_post _ _ _ _) as [r|msg resp|cls msg] eqn:Hpost.
  - destruct (status_code r =? 201)%Z eqn:Hs; destruct (content r) as [j|err|cls msg] eqn:Hc;
      cbn [ending snd]; (split; [discriminate|]); (split; [|reflexivity]);
      intros j'; split; try discriminate;
      try (intros (r' & [= <-] & Hs' & Hj); (congruence || lia)).
    intros [= <-]. exists r. split; [done|]. split; [lia|done].
  - cbn [ending snd]. split; [discriminate|]. split; [|reflexivity].
    intros j; split; [discriminate|]. intros (r' & [=] & _).
  - cbn [ending snd]. split; [discriminate|]. split; [|reflexivity].
    intros j; split; [discriminate|]. intros (r' & [=] & _).
Qed.

(** C5 as stated fails: the POST is answered with status 201 and a body
    that is not JSON; the function prints the success line, [json()]
    raises, the handler prints its line and the function returns None. *)
Lemma created_without_json_returns_None :
  requests_post garbled_world (comments_url demo_api "acme" "widgets" "42")
    (comment_headers "t0k") "Looks good." = Replied created_not_json
  /\ status_code created_not_json = 201
  /\ add_pr_comment garbled_world demo_api "acme" "widgets" "42" "t0k" "Looks good." =
       ([HttpPost (comments_url demo_api "acme" "widgets" "42") (comment_headers "t0k")
           "Looks good.";
         Output Stdout "Comment added successfully!";
         Output Stdout "An error occurred: Expecting value: line 1 column 1 (char 0)"],
        Ret None).
Proof. vm_compute. auto. Qed.

(** ** C2: the report against the golden text *)

(** The text the code renders in the example: the closing delimiter of
    a file has no line feed after it, so the next [File Name:] follows on
    its line. *)
Example demo_rendered_text :
  rendered_report "Fix typo" "None"
    [mkFile "a.py" (Some "@@ -1 +1 @@"); mkFile "logo.png" None] =
"--- Pull Request Details ---
Title: Fix typo
Body:
None

--- Changed Files ---
File Name: a.py
Patch:
--------------------------------
@@ -1 +1 @@
--------------------------------File Name: logo.png
Patch:
--------------------------------
No patch data available.
--------------------------------".
Proof. vm_compute. reflexivity. Qed.

Lemma length_append (a b : string) :
  String.length (a +:+ b) = (String.length a + String.length b)%nat.
Proof.
  induction a as [|c a IH]; [reflexivity|].
  rewrite append_cons. simpl. by rewrite IH.
Qed.

Lemma golden_file_rendered f : golden_file f = rendered_file f +:+ LF.
Proof.
  unfold golden_file, rendered_file. rewrite !append_assoc. reflexivity.
Qed.

(** The golden text has one line feed more per file than the text the
    code renders. *)
Lemma golden_report_length title body files :
  String.length (golden_report title body files)
  = (String.length (rendered_report title body files) + length files)%nat.
Proof.
  unfold golden_report, rendered_report. rewrite !length_append.
  assert (H : String.length (foldr (fun f rest => golden_file f +:+ rest) "" files)
              = (String.length
                   (foldr (fun f rest => rendered_file f +:+ rest) "" files)
                 + length files)%nat).
  { induction files as [|f files IH]; [reflexivity|].
    cbn [foldr length]. rewrite !length_append, IH, golden_file_rendered, length_append.
    change (String.length LF) with 1%nat. lia. }
  rewrite H. lia.
Qed.

(** After a successful fetch the report is the golden text only when
    there is no changed file. *)
Lemma report_is_golden_iff_no_files w api_url owner repo pr_number token rp rf pr files :
  requests_get w (pr_api_url api_url owner repo pr_number) (fetch_headers token)
    = Replied rp ->
  error_status rp = false -> content rp = JsonBody (JObject pr) ->
  requests_get w (files_api_url api_url owner repo pr_number) (fetch_headers token)
    = Replied rf ->
  error_status rf = false -> content rf = JsonBody (JArray files) ->
  ending (get_pull_request_details w api_url owner repo pr_number token)
  = Ret (golden_report (py_str (dict_get pr "title")) (py_str (dict_get pr "body"))
           (map file_of files))
  <-> files = [].
Proof.
  intros Hp Hps Hpc Hf Hfs Hfc.
  rewrite (fetch_success _ _ _ _ _ _ _ _ _ _ Hp Hps Hpc Hf Hfs Hfc).
  cbn [ending snd]. split.
  - intros H.
    apply (f_equal (fun o : outcome string =>
                      match o with Ret x => String.length x | _ => 0%nat end)) in H.
    cbv beta iota in H. rewrite golden_report_length, length_map in H.
    destruct files; [reflexivity|simpl in H; lia].
  - intros ->. reflexivity.
Qed.

(** C2, at the failing input.  For the pull request and the three
    changed files of the example, the report that
    [get_pull_request_details] returns is the first text below: line 57
    appends the closing delimiter without a line feed, so the delimiter is
    not a line of its own and the next [File Name:] is glued to it.  The
    golden text, with the patch between two delimiter lines, is the second
    text, and the report is not that text. *)
Theorem closing_delimiter_is_glued :
  ending (get_pull_request_details demo_world demo_api "acme" "widgets" "42" "t0k") =
    Ret
"--- Pull Request Details ---
Title: Fix typo
Body:
None

--- Changed Files ---
File Name: a.py
Patch:
--------------------------------
@@ -1 +1 @@
--------------------------------File Name: logo.png
Patch:
--------------------------------
No patch data available.
--------------------------------File Name: big.txt
Patch:
--------------------------------
None
--------------------------------"
  /\ golden_report "Fix typo" "None" (map file_of demo_files) =
"--- Pull Request Details ---
Title: Fix typo
Body:
None

--- Changed Files ---
File Name: a.py
Patch:
--------------------------------
@@ -1 +1 @@
--------------------------------
File Name: logo.png
Patch:
--------------------------------
No patch data available.
--------------------------------
File Name: big.txt
Patch:
--------------------------------
None
--------------------------------
"
  /\ ending (get_pull_request_details demo_world demo_api "acme" "widgets" "42" "t0k")
     <> Ret (golden_report "Fix typo" "None" (map file_of demo_files)).
Proof.
  split; [vm_compute; reflexivity|]. split; [vm_compute; reflexivity|].
  intros H.
  apply (report_is_golden_iff_no_files demo_world demo_api "acme" "widgets" "42" "t0k"
           pr_ok files_ok demo_pr demo_files
           eq_refl eq_refl eq_refl eq_refl eq_refl eq_refl) in H.
  discriminate.
Qed.

(** ** C10: a null patch is not the placeholder *)

Lemma rendered_report_app title body before f after :
  rendered_report title body (before ++ f :: after) =
    rendered_report title body before
    +:+ rendered_file f
    +:+ foldr (fun f rest => rendered_file f +:+ rest) "" after.
Proof.
  unfold rendered_report. rewrite !append_assoc. do 12 f_equal.
  induction before as [|x before IH]; simpl.
  - reflexivity.
  - rewrite IH, !append_assoc. reflexivity.
Qed.

(** C10.  In the report of a successful fetch, the patch position of a
    file entry holds [str()] of the value under its [patch] key whenever
    the key is present, so a null patch shows as the text None; the
    placeholder appears when the key is absent. *)
Theorem null_patch_is_rendered_as_None (w : world)
    (api_url owner repo pr_number token : string) (rp rf : response)
    (pr : gmap string pyval) (before after : list (gmap string pyval))
    (d : gmap string pyval) :
  requests_get w (pr_api_url api_url owner repo pr_number) (fetch_headers token)
    = Replied rp ->
  error_status rp = false -> content rp = JsonBody (JObject pr) ->
  requests_get w (files_api_url api_url owner repo pr_number) (fetch_headers token)
    = Replied rf ->
  error_status rf = false ->
  content rf = JsonBody (JArray (before ++ d :: after)) ->
  let report patch :=
    Ret (rendered_report (py_str (dict_get pr "title")) (py_str (dict_get pr "body"))
           (map file_of before)
         +:+ file_section (py_str (dict_get d "filename")) patch
         +:+ foldr (fun f rest => rendered_file f +:+ rest) "" (map file_of after)) in
  let returned :=
    ending (get_pull_request_details w api_url owner repo pr_number token) in
  (d !! "patch" = Some PyNone -> returned = report "None")
  /\ (forall v, d !! "patch" = Some v -> returned = report (py_str v))
  /\ (d !! "patch" = None -> returned = report "No patch data available.").
Proof.
  intros Hp Hps Hpc Hf Hfs Hfc report returned. subst report returned.
  rewrite (fetch_success _ _ _ _ _ _ _ _ _ _ Hp Hps Hpc Hf Hfs Hfc).
  cbn [ending snd]. rewrite map_app, map_cons, rendered_report_app.
  unfold rendered_file, file_of, file_section. cbn [file_name file_patch].
  repeat split.
  - intros ->. reflexivity.
  - intros v ->. reflexivity.
  - intros ->. reflexivity.
Qed.

Lemma null_patch_is_rendered_as_None_witness :
  ending (get_pull_request_details demo_world demo_api "acme" "widgets" "42" "t0k") =
    Ret (rendered_report "Fix typo" "None"
           [mkFile "a.py" (Some "@@ -1 +1 @@"); mkFile "logo.png" None]
         +:+ file_section "big.txt" "None" +:+ "").
Proof.
  exact (proj1 (null_patch_is_rendered_as_None demo_world demo_api "acme" "widgets"
                  "42" "t0k" pr_ok files_ok demo_pr
                  [ {[ "filename" := PyStr "a.py"; "patch" := PyStr "@@ -1 +1 @@" ]};
                    {[ "filename" := PyStr "logo.png" ]} ]
                  []
                  {[ "filename" := PyStr "big.txt"; "patch" := PyNone ]}
                  eq_refl eq_refl eq_refl eq_refl eq_refl eq_refl) eq_refl).
Defined.

(** ** C1: a failure without a response does not stop the fetch stage *)

(** C1, at the failing input.  When both GETs raise a ConnectionError,
    which carries no response, [get_pull_request_details] prints the two
    error lines and returns the empty report; the driver then goes on,
    starts the review tool and ends normally. *)
Theorem lost_connection_is_not_fatal :
  get_pull_request_details offline_world demo_api "acme" "widgets" "42" "t0k" =
    ([HttpGet demo_pr_url (fetch_headers "t0k");
      Output Stdout "Error fetching files data: Connection refused";
      HttpGet demo_files_url (fetch_headers "t0k");
      Output Stdout "Error fetching files data: Connection refused"],
     Ret "")
  /\ ending (main offline_world demo_env) = Ret tt
  /\ ran_tool (trace (main offline_world demo_env)) = true.
Proof. vm_compute. auto. Qed.

(** ** C9: where the fetch stage writes its diagnostics *)

(** The fetch stage writes nothing to standard error. *)
Lemma fetch_never_writes_stderr w api_url owner repo pr_number token :
  wrote_stderr (trace (get_pull_request_details w api_url owner repo pr_number token))
  = false.
Proof.
  apply existsb_false_Forall.
  eapply Forall_impl; [apply fetch_events|].
  intros e [->|[->|H]]; [reflexivity..|].
  destruct e as [[]| []| | |]; simpl in *; tauto.
Qed.




(** ** C3: a rejected status stops the driver before the review *)

(** The fetch stage does not start the review tool. *)
Lemma fetch_never_runs w api_url owner repo pr_number token :
  ran_tool (trace (get_pull_request_details w api_url owner repo pr_number token))
  = false.
Proof.
  apply existsb_false_Forall.
  eapply Forall_impl; [apply fetch_events|].
  intros e [->|[->|H]]; [reflexivity..|].
  destruct e; simpl in *; tauto.
Qed.

(** After the fetch stage the driver sends no GET. *)
Lemma no_get_after_fetch w api_url repo_host owner repo pr_number token pr_details u h :
  ~ In (HttpGet u h)
      (trace (comment <- execute_cody_cli w
                           (str_opt repo_host +:+ "/" +:+ owner +:+ "/" +:+ repo)
                           (cody_prompt pr_details) ;;
              add_pr_comment w api_url owner repo pr_number token comment ;;;
              ret tt)).
Proof.
  intros Hin.
  apply in_trace_bind in Hin as [Hin|(comment & _ & Hin)].
  - pose proof (cody_events w (str_opt repo_host +:+ "/" +:+ owner +:+ "/" +:+ repo)
                  (cody_prompt pr_details)) as Hc.
    rewrite List.Forall_forall in Hc.
    destruct (Hc _ Hin) as [Heq|Ho]; [discriminate|exact Ho].
  - apply in_trace_bind in Hin as [Hin|(v & _ & [])].
    pose proof (publish_events w api_url owner repo pr_number token comment) as Hp.
    rewrite List.Forall_forall in Hp.
    destruct (Hp _ Hin) as [Heq|Ho]; [discriminate|exact Ho].
Qed.

(** C3, as the code has it.  If a GET that the driver sends, the one for
    the pull request or the one for its files, is answered with a status
    from 400 to 599, the process ends through [exit(1)] and the review tool
    is never started. *)
Theorem error_status_stops_before_review (w : world) (environ : gmap string string)
    (u : string) (h : headers) (r : response) :
  In (HttpGet u h) (trace (main w environ)) ->
  requests_get w u h = Replied r ->
  400 <= status_code r < 600 ->
  ending (main w environ) = Exit 1
  /\ ran_tool (trace (main w environ)) = false.
Proof.
  intros Hin Hget Hstatus.
  assert (He : error_status r = true) by (unfold error_status; lia).
  destruct (main_dichotomy w environ)
    as [Hout|(repo_host & owner & repo & pr_number & Hmain)].
  - rewrite List.Forall_forall in Hout. destruct (Hout _ Hin).
  - rewrite Hmain in *. unfold pipeline in *.
    apply in_trace_bind in Hin as [Hin|(pr_details & _ & Hin)].
    + pose proof (fetch_error_status_exits _ _ _ _ _ _ _ _ _ Hin Hget He) as Hexit.
      rewrite (bind_Exit _ _ _ Hexit). cbn [ending trace fst snd].
      split; [reflexivity|apply fetch_never_runs].
    + exfalso. eapply no_get_after_fetch, Hin.
Qed.

Lemma error_status_stops_before_review_witness :
  In (HttpGet demo_pr_url (fetch_headers "t0k")) (trace (main not_found_world demo_env))
  /\ requests_get not_found_world demo_pr_url (fetch_headers "t0k")
     = Replied (not_found demo_pr_url)
  /\ 400 <= status_code (not_found demo_pr_url) < 600
  /\ ending (main not_found_world demo_env) = Exit 1
  /\ ran_tool (trace (main not_found_world demo_env)) = false.
Proof.
  assert (Hin : In (HttpGet demo_pr_url (fetch_headers "t0k"))
                  (trace (main not_found_world demo_env)))
    by (vm_compute; auto).
  assert (Hs : 400 <= status_code (not_found demo_pr_url) < 600)
    by (simpl; lia).
  split; [exact Hin|]. split; [reflexivity|]. split; [exact Hs|].
  exact (error_status_stops_before_review not_found_world demo_env demo_pr_url
           (fetch_headers "t0k") (not_found demo_pr_url) Hin eq_refl Hs).
Defined.

(** C3 as stated fails for a status that is neither 2xx nor 4xx/5xx: the
    pull-request GET is answered with 302, [raise_for_status] lets it
    through, and the driver goes on to start the review tool and ends
    normally. *)
Lemma redirect_status_reaches_review :
  In (HttpGet demo_pr_url (fetch_headers "t0k")) (trace (main redirect_world demo_env))
  /\ requests_get redirect_world demo_pr_url (fetch_headers "t0k")
     = Replied found_elsewhere
  /\ ~ (200 <= status_code found_elsewhere < 300)
  /\ ending (main redirect_world demo_env) = Ret tt
  /\ ran_tool (trace (main redirect_world demo_env)) = true.
Proof.
  split; [vm_compute; auto|]. split; [reflexivity|].
  split; [simpl; lia|]. vm_compute. auto.
Qed.

(** ** C6: the configuration checks *)

(** Every request of the three stages authenticates with the token the
    driver passes. *)
Lemma pipeline_uses_token w api_url repo_host owner repo pr_number token :
  Forall (uses_token token)
    (trace (pipeline w api_url repo_host owner repo pr_number token)).
Proof.
  unfold pipeline. apply Forall_trace_bind.
  - eapply Forall_impl; [apply fetch_events|].
    intros e [->|[->|H]]; [reflexivity..|]. destruct e; simpl in *; tauto.
  - intros pr_details. apply Forall_trace_bind.
    + eapply Forall_impl; [apply cody_events|].
      intros e [->|H]; [exact I|]. destruct e; simpl in *; tauto.
    + intros comment. apply Forall_trace_bind; [|intros; constructor].
      eapply Forall_impl; [apply publish_events|].
      intros e [->|H]; [reflexivity|]. destruct e; simpl in *; tauto.
Qed.

(** C6.  In a pull-request run: if GITHUB_TOKEN and GH_TOKEN are both
    unset or empty, or SRC_ENDPOINT is, or SRC_ACCESS_TOKEN is, the driver
    prints one message (the token message when no token is there, the Cody
    message otherwise) and calls [exit(1)], and that printed line is the
    whole trace, so no request was sent; and when GITHUB_TOKEN is set and
    not empty, every request the driver sends authenticates with it,
    whatever GH_TOKEN holds, while GH_TOKEN is the one used when
    GITHUB_TOKEN is unset or empty. *)
Theorem missing_configuration_exits (w : world) (environ : gmap string string) :
  environ !! "GITHUB_EVENT_NAME" = Some "pull_request" ->
  (unset_or_empty (environ !! "GITHUB_TOKEN")
   /\ unset_or_empty (environ !! "GH_TOKEN") ->
   main w environ = ([Output Stdout token_missing_message], Exit 1))
  /\ (unset_or_empty (environ !! "SRC_ENDPOINT")
      \/ unset_or_empty (environ !! "SRC_ACCESS_TOKEN") ->
      main w environ = ([Output Stdout token_missing_message], Exit 1)
      \/ main w environ = ([Output Stdout cody_missing_message], Exit 1))
  /\ (forall t, environ !! "GITHUB_TOKEN" = Some t -> t <> "" ->
        env_token environ = Some t
        /\ Forall (uses_token t) (trace (main w environ)))
  /\ (forall t, unset_or_empty (environ !! "GITHUB_TOKEN") ->
        environ !! "GH_TOKEN" = Some t -> t <> "" ->
        env_token environ = Some t
        /\ Forall (uses_token t) (trace (main w environ))).
Proof.
  intros Hev.
  assert (Huses : forall t, env_token environ = Some t ->
                    Forall (uses_token t) (trace (main w environ))).
  { intros t Htok.
    destruct (main_dichotomy w environ)
      as [Hout|(repo_host & owner & repo & pr_number & Hmain)].
    - eapply Forall_impl; [exact Hout|].
      intros e He. destruct e; simpl in *; tauto.
    - rewrite Hmain, Htok. apply pipeline_uses_token. }
  split; [|split; [|split]].
  - intros [Hg Hgh]. apply truthy_false in Hg, Hgh.
    unfold main. rewrite decide_True by exact Hev.
    unfold py_or. rewrite Hg, Hgh. reflexivity.
  - intros Hcody.
    assert (Hc : negb (truthy (environ !! "SRC_ENDPOINT"))
                 || negb (truthy (environ !! "SRC_ACCESS_TOKEN")) = true).
    { destruct Hcody as [H|H]; apply truthy_false in H; rewrite H;
        [reflexivity|apply orb_true_r]. }
    unfold main. rewrite decide_True by exact Hev.
    destruct (truthy (py_or (environ !! "GITHUB_TOKEN") (environ !! "GH_TOKEN")));
      [right|left; reflexivity].
    rewrite Hc. reflexivity.
  - intros t Ht Hne.
    assert (Htok : env_token environ = Some t).
    { unfold env_token, py_or. rewrite Ht. simpl.
      destruct (String.eqb_spec t ""); [contradiction|reflexivity]. }
    auto.
  - intros t Hg Hgh Hne.
    assert (Htok : env_token environ = Some t).
    { unfold env_token, py_or. apply truthy_false in Hg. by rewrite Hg. }
    auto.
Qed.

Lemma missing_configuration_exits_witness :
  delete "SRC_ENDPOINT" demo_env !! "GITHUB_EVENT_NAME" = Some "pull_request"
  /\ unset_or_empty (delete "SRC_ENDPOINT" demo_env !! "SRC_ENDPOINT")
  /\ (main demo_world (delete "SRC_ENDPOINT" demo_env)
        = ([Output Stdout token_missing_message], Exit 1)
      \/ main demo_world (delete "SRC_ENDPOINT" demo_env)
        = ([Output Stdout cody_missing_message], Exit 1)).
Proof.
  assert (Hev : delete "SRC_ENDPOINT" demo_env !! "GITHUB_EVENT_NAME"
                = Some "pull_request") by reflexivity.
  assert (Hm : unset_or_empty (delete "SRC_ENDPOINT" demo_env !! "SRC_ENDPOINT"))
    by (left; reflexivity).
  split; [exact Hev|]. split; [exact Hm|].
  exact (proj1 (proj2 (missing_configuration_exits demo_world
                         (delete "SRC_ENDPOINT" demo_env) Hev)) (or_introl Hm)).
Defined.

(** ** C7: owner, repository and number *)

(** C7.  Once the checks pass, the driver runs the stages with the two
    pieces of GITHUB_REPOSITORY split on the slash as owner and repository
    name, and with the piece at index 2 of GITHUB_REF split on the slash as
    pull-request number; [acme/widgets] splits into [acme] and [widgets],
    and the piece at index 2 of [refs/pull/42/merge] is [42]. *)
Theorem driver_splits_repository_and_ref (w : world) (environ : gmap string string)
    (repo_host : option string) (repository ref owner name number : string) :
  environ !! "GITHUB_EVENT_NAME" = Some "pull_request" ->
  truthy (env_token environ) = true ->
  truthy (environ !! "SRC_ENDPOINT") = true ->
  truthy (environ !! "SRC_ACCESS_TOKEN") = true ->
  urlparse_hostname w (env_api_url environ) = inr repo_host ->
  environ !! "GITHUB_REPOSITORY" = Some repository ->
  split_on slash repository = [owner; name] ->
  environ !! "GITHUB_REF" = Some ref ->
  split_on slash ref !! 2%nat = Some number ->
  main w environ =
    pipeline w (env_api_url environ) repo_host owner name number
      (str_opt (env_token environ))
  /\ split_on slash "acme/widgets" = ["acme"; "widgets"]
  /\ split_on slash "refs/pull/42/merge" !! 2%nat = Some "42".
Proof.
  intros. split; [eapply main_pipeline; eauto|]. split; reflexivity.
Qed.

Lemma driver_splits_repository_and_ref_witness :
  main demo_world demo_env =
    pipeline demo_world demo_api (Some "api.github.com") "acme" "widgets" "42" "t0k".
Proof.
  exact (proj1 (driver_splits_repository_and_ref demo_world demo_env
                  (Some "api.github.com") "acme/widgets" "refs/pull/42/merge"
                  "acme" "widgets" "42"
                  eq_refl eq_refl eq_refl eq_refl eq_refl eq_refl eq_refl eq_refl
                  eq_refl)).
Defined.

(** ** Further facts and runs *)

(** [owner/name] splits into its two pieces when neither holds a slash. *)
Lemma split_owner_name (owner name : string) :
  occurs slash owner = false -> occurs slash name = false ->
  split_on slash (owner +:+ "/" +:+ name) = [owner; name].
Proof.
  intros Ho Hn.
  change ("/" +:+ name) with (String slash name).
  by rewrite (split_on_first slash owner name Ho), (split_on_none slash name Hn).
Qed.

(** A failing review tool ends the whole run with the tool's code, after
    the fetch and before any comment is posted. *)
Example failing_tool_run :
  ending (main failing_tool_world demo_env) = Exit 3
  /\ existsb (fun e => match e with HttpPost _ _ _ => true | _ => false end)
       (trace (main failing_tool_world demo_env)) = false.
Proof. vm_compute. auto. Qed.

(** A refused comment is printed and the run ends normally. *)
Example refused_comment_run :
  ending (main forbidden_world demo_env) = Ret tt
  /\ In (Output Stdout "Failed to add comment. Status code: 403")
        (trace (main forbidden_world demo_env)).
Proof. vm_compute. auto 10. Qed.

(** The whole run when everything answers as hoped. *)
Example demo_run :
  main demo_world demo_env =
    ([HttpGet demo_pr_url (fetch_headers "t0k");
      HttpGet demo_files_url (fetch_headers "t0k");
      Run (command_list "api.github.com/acme/widgets"
             (cody_prompt
                (rendered_report "Fix typo" "None" (map file_of demo_files))));
      HttpPost (comments_url demo_api "acme" "widgets" "42") (comment_headers "t0k")
        "Looks good.";
      Output Stdout "Comment added successfully!"],
     Ret tt).
Proof. vm_compute. reflexivity. Qed.

(** * Further properties of the code *)

(** ** Splitting on the slash (lines 159 and 162) *)

Lemma split_on_length (sep : ascii) (s : string) :
  length (split_on sep s) = S (count_sep sep s).
Proof.
  induction s as [|c s IH]; simpl; [reflexivity|].
  destruct (Ascii.eqb c sep); simpl; [by rewrite IH|].
  destruct (split_on sep s) as [|piece pieces]; simpl in *; [discriminate|exact IH].
Qed.

Lemma split_on_pieces (sep : ascii) (s : string) :
  Forall (fun piece => occurs sep piece = false) (split_on sep s).
Proof.
  induction s as [|c s IH]; simpl; [repeat constructor|].
  destruct (Ascii.eqb c sep) eqn:Hc; [constructor; [reflexivity|exact IH]|].
  destruct (split_on sep s) as [|piece pieces]; [repeat constructor; simpl; by rewrite Hc|].
  inversion IH as [|? ? Hp Hps]; subst. constructor; [|exact Hps].
  simpl. by rewrite Hc, Hp.
Qed.

Lemma split_on_join (sep : ascii) (s : string) :
  join_with sep (split_on sep s) = s.
Proof.
  induction s as [|c s IH]; simpl; [reflexivity|].
  destruct (Ascii.eqb_spec c sep) as [->|Hne].
  - pose proof (split_on_length sep s) as Hlen.
    destruct (split_on sep s) as [|piece pieces]; [discriminate|].
    change (join_with sep ("" :: piece :: pieces))
      with (String sep (join_with sep (piece :: pieces))).
    by rewrite IH.
  - pose proof (split_on_length sep s) as Hlen.
    destruct (split_on sep s) as [|piece [|next pieces]]; [discriminate|..].
    + simpl in *. by rewrite IH.
    + change (join_with sep (String c piece :: next :: pieces))
        with (String c piece +:+ String sep (join_with sep (next :: pieces))).
      change (join_with sep (piece :: next :: pieces))
        with (piece +:+ String sep (join_with sep (next :: pieces))) in IH.
      by rewrite append_cons, IH.
Qed.

(** X1.  Joining the pieces of [s.split(sep)] with the separator gives
    [s] back, which has as many pieces as separators plus one, none of
    them holding the separator. *)
Theorem join_split_on (sep : ascii) (s : string) :
  join_with sep (split_on sep s) = s
  /\ length (split_on sep s) = S (count_sep sep s)
  /\ Forall (fun piece => occurs sep piece = false) (split_on sep s).
Proof.
  split; [apply split_on_join|].
  split; [apply split_on_length|apply split_on_pieces].
Qed.

(** Two pieces: the string is the first, a separator, the second. *)
Lemma split_on_two (sep : ascii) (s a b : string) :
  split_on sep s = [a; b] ->
  s = a +:+ String sep b /\ occurs sep a = false /\ occurs sep b = false.
Proof.
  intros H. pose proof (split_on_join sep s) as Hj.
  pose proof (split_on_pieces sep s) as Hp.
  rewrite H in Hj, Hp. split; [by rewrite <- Hj|].
  inversion Hp as [|? ? Ha Hr]; subst. inversion Hr; subst. auto.
Qed.

(** ** The driver when a variable does not parse (lines 159-162) *)

(** The driver past its checks: what is left is the parsing of the two
    variables and the stages. *)
Ltac pass_checks H :=
  destruct H as (Hev & Htok & Hend & Hacc & Hhost);
  unfold main; rewrite decide_True by exact Hev;
  unfold env_token, env_api_url in *;
  rewrite Htok, Hend, Hacc, Hhost; cbn [negb orb];
  rewrite !bind_ret_l.

Lemma driver_too_few_pieces w environ repo_host repository :
  checks_pass w environ repo_host ->
  environ !! "GITHUB_REPOSITORY" = Some repository ->
  count_sep slash repository = 0%nat ->
  main w environ =
    ([], Raise (OtherException "ValueError"
                  "not enough values to unpack (expected 2, got 1)")).
Proof.
  intros Hchecks Hrepo Hcount.
  pose proof (split_on_length slash repository) as Hlen.
  pass_checks Hchecks. rewrite Hrepo. unfold env_split. rewrite bind_ret_l.
  destruct (split_on slash repository) as [|a [|b [|c l]]];
    simpl in Hlen; try lia; reflexivity.
Qed.

Lemma driver_too_many_pieces w environ repo_host repository :
  checks_pass w environ repo_host ->
  environ !! "GITHUB_REPOSITORY" = Some repository ->
  (2 <= count_sep slash repository)%nat ->
  main w environ =
    ([], Raise (OtherException "ValueError"
                  "too many values to unpack (expected 2)")).
Proof.
  intros Hchecks Hrepo Hcount.
  pose proof (split_on_length slash repository) as Hlen.
  pass_checks Hchecks. rewrite Hrepo. unfold env_split. rewrite bind_ret_l.
  destruct (split_on slash repository) as [|a [|b [|c l]]];
    simpl in Hlen; try lia; reflexivity.
Qed.

Lemma driver_short_ref w environ repo_host repository owner name ref :
  checks_pass w environ repo_host ->
  environ !! "GITHUB_REPOSITORY" = Some repository ->
  split_on slash repository = [owner; name] ->
  environ !! "GITHUB_REF" = Some ref ->
  (count_sep slash ref < 2)%nat ->
  main w environ =
    ([], Raise (OtherException "IndexError" "list index out of range")).
Proof.
  intros Hchecks Hrepo Hsplit Href Hcount.
  pose proof (split_on_length slash ref) as Hlen.
  pass_checks Hchecks. rewrite Hrepo, Href. unfold env_split.
  rewrite bind_ret_l, Hsplit, !bind_ret_l.
  destruct (split_on slash ref) as [|a [|b [|c l]]];
    simpl in Hlen; try lia; reflexivity.
Qed.

Lemma driver_unset_repository w environ repo_host :
  checks_pass w environ repo_host ->
  environ !! "GITHUB_REPOSITORY" = None ->
  main w environ = ([], Raise (attribute_error "NoneType" "split")).
Proof.
  intros Hchecks Hrepo. pass_checks Hchecks. rewrite Hrepo. reflexivity.
Qed.

Lemma driver_unset_ref w environ repo_host repository owner name :
  checks_pass w environ repo_host ->
  environ !! "GITHUB_REPOSITORY" = Some repository ->
  split_on slash repository = [owner; name] ->
  environ !! "GITHUB_REF" = None ->
  main w environ = ([], Raise (attribute_error "NoneType" "split")).
Proof.
  intros Hchecks Hrepo Hsplit Href. pass_checks Hchecks.
  rewrite Hrepo. unfold env_split.
  rewrite bind_ret_l, Hsplit, !bind_ret_l, Href. reflexivity.
Qed.

(** How a run of the driver looks: it stops in a check with one line on
    standard output and [exit(1)], or an exception leaves it before any
    effect, or it runs the stages. *)
Lemma main_inversion w environ :
  (exists line, main w environ = ([Output Stdout line], Exit 1))
  \/ (exists e, main w environ = ([], Raise e))
  \/ exists repo_host repository ref owner name number,
       driver_ready w environ repo_host repository ref owner name number
       /\ main w environ =
            pipeline w (env_api_url environ) repo_host owner name number
              (str_opt (env_token environ)).
Proof.
  destruct (decide (environ !! "GITHUB_EVENT_NAME" = Some "pull_request")) as [Hev|Hev];
    [|left; unfold main; rewrite decide_False by exact Hev; eexists; reflexivity].
  destruct (truthy (env_token environ)) eqn:Htok;
    [|left; unfold main; rewrite decide_True by exact Hev;
      unfold env_token in Htok; rewrite Htok; eexists; reflexivity].
  destruct (truthy (environ !! "SRC_ENDPOINT")) eqn:Hend;
    [|left; unfold main; rewrite decide_True by exact Hev;
      unfold env_token in Htok; rewrite Htok, Hend; eexists; reflexivity].
  destruct (truthy (environ !! "SRC_ACCESS_TOKEN")) eqn:Hacc;
    [|left; unfold main; rewrite decide_True by exact Hev;
      unfold env_token in Htok; rewrite Htok, Hend, Hacc; eexists; reflexivity].
  right.
  destruct (urlparse_hostname w (env_api_url environ)) as [e|repo_host] eqn:Hhost;
    [left; unfold main; rewrite decide_True by exact Hev;
      unfold env_token, env_api_url in *; rewrite Htok, Hend, Hacc, Hhost;
      eexists; reflexivity|].
  assert (Hchecks : checks_pass w environ repo_host) by (repeat split; assumption).
  destruct (environ !! "GITHUB_REPOSITORY") as [repository|] eqn:Hrepo;
    [|left; eexists; by apply (driver_unset_repository w environ repo_host)].
  pose proof (split_on_length slash repository) as Hlen.
  destruct (split_on slash repository) as [|owner [|name [|x l]]] eqn:Hsplit;
    [discriminate| | |].
  - left. eexists.
    apply (driver_too_few_pieces w environ repo_host repository Hchecks Hrepo).
    simpl in Hlen. lia.
  - destruct (environ !! "GITHUB_REF") as [ref|] eqn:Href;
      [|left; eexists;
        by apply (driver_unset_ref w environ repo_host repository owner name)].
    destruct (split_on slash ref !! 2%nat) as [number|] eqn:Hpr.
    + right. exists repo_host, repository, ref, owner, name, number.
      destruct Hchecks as (? & ? & ? & ? & ?).
      split; [repeat split; assumption|].
      eapply main_pipeline; eauto.
    + left. eexists.
      apply (driver_short_ref w environ repo_host repository owner name ref
               Hchecks Hrepo Hsplit Href).
      apply lookup_ge_None in Hpr.
      pose proof (split_on_length slash ref). lia.
  - left. eexists.
    apply (driver_too_many_pieces w environ repo_host repository Hchecks Hrepo).
    simpl in Hlen. lia.
Qed.

(** X2.  With the checks passed, a GITHUB_REPOSITORY without a slash, or
    with two or more, makes the tuple assignment raise ValueError: the
    driver ends there, having printed nothing and called nothing. *)
Theorem repository_with_wrong_slashes (w : world) (environ : gmap string string)
    (repo_host : option string) (repository : string) :
  checks_pass w environ repo_host ->
  environ !! "GITHUB_REPOSITORY" = Some repository ->
  (count_sep slash repository = 0%nat ->
   main w environ =
     ([], Raise (OtherException "ValueError"
                   "not enough values to unpack (expected 2, got 1)")))
  /\ ((2 <= count_sep slash repository)%nat ->
      main w environ =
        ([], Raise (OtherException "ValueError"
                      "too many values to unpack (expected 2)"))).
Proof.
  intros Hchecks Hrepo. split; intros Hcount.
  - eapply driver_too_few_pieces; eauto.
  - eapply driver_too_many_pieces; eauto.
Qed.

(** X3.  With the checks passed and GITHUB_REPOSITORY parsed, a
    GITHUB_REF with fewer than two slashes has no piece at index 2: the
    driver ends with IndexError, having printed nothing and called
    nothing. *)
Theorem ref_with_too_few_pieces (w : world) (environ : gmap string string)
    (repo_host : option string) (repository owner name ref : string) :
  checks_pass w environ repo_host ->
  environ !! "GITHUB_REPOSITORY" = Some repository ->
  split_on slash repository = [owner; name] ->
  environ !! "GITHUB_REF" = Some ref ->
  (count_sep slash ref < 2)%nat ->
  main w environ =
    ([], Raise (OtherException "IndexError" "list index out of range")).
Proof. apply driver_short_ref. Qed.

(** X4.  With the checks passed, an unset GITHUB_REPOSITORY, or an unset
    GITHUB_REF once the repository is parsed, makes [.split] raise
    AttributeError on None: the driver ends there, having printed nothing
    and called nothing. *)
Theorem unset_repository_or_ref (w : world) (environ : gmap string string)
    (repo_host : option string) :
  checks_pass w environ repo_host ->
  environ !! "GITHUB_REPOSITORY" = None
  \/ (exists repository owner name,
        environ !! "GITHUB_REPOSITORY" = Some repository
        /\ split_on slash repository = [owner; name]
        /\ environ !! "GITHUB_REF" = None) ->
  main w environ = ([], Raise (attribute_error "NoneType" "split")).
Proof.
  intros Hchecks [Hrepo|(repository & owner & name & Hrepo & Hsplit & Href)].
  - eapply driver_unset_repository; eauto.
  - eapply driver_unset_ref; eauto.
Qed.

Lemma demo_checks_pass environ :
  environ !! "GITHUB_EVENT_NAME" = Some "pull_request" ->
  truthy (env_token environ) = true ->
  truthy (environ !! "SRC_ENDPOINT") = true ->
  truthy (environ !! "SRC_ACCESS_TOKEN") = true ->
  environ !! "GITHUB_API_URL" = None ->
  checks_pass demo_world environ (Some "api.github.com").
Proof.
  intros Hev Htok Hend Hacc Hapi. repeat split; try assumption.
  unfold env_api_url. rewrite Hapi. reflexivity.
Defined.

Lemma repository_with_wrong_slashes_witness :
  main demo_world no_owner_env =
    ([], Raise (OtherException "ValueError"
                  "not enough values to unpack (expected 2, got 1)")).
Proof.
  exact (proj1 (repository_with_wrong_slashes demo_world no_owner_env
                  (Some "api.github.com") "widgets"
                  (demo_checks_pass no_owner_env eq_refl eq_refl eq_refl eq_refl eq_refl)
                  eq_refl) eq_refl).
Defined.

Lemma ref_with_too_few_pieces_witness :
  main demo_world bare_ref_env =
    ([], Raise (OtherException "IndexError" "list index out of range")).
Proof.
  assert (Hcount : (count_sep slash "main" < 2)%nat) by (vm_compute; lia).
  exact (ref_with_too_few_pieces demo_world bare_ref_env (Some "api.github.com")
           "acme/widgets" "acme" "widgets" "main"
           (demo_checks_pass bare_ref_env eq_refl eq_refl eq_refl eq_refl eq_refl)
           eq_refl eq_refl eq_refl Hcount).
Defined.

Lemma unset_repository_or_ref_witness :
  main demo_world no_repository_env =
    ([], Raise (attribute_error "NoneType" "split")).
Proof.
  exact (unset_repository_or_ref demo_world no_repository_env (Some "api.github.com")
           (demo_checks_pass no_repository_env eq_refl eq_refl eq_refl eq_refl eq_refl)
           (or_introl eq_refl)).
Defined.

(** ** The shape of each stage *)

(** One [try] statement: its GET, then lines on standard output; it
    ends with [exit(1)] exactly when the failure carries a response, and
    otherwise returns or lets a non-request exception out. *)
Lemma fetch_block_shape w u h result render :
  plain render ->
  exists outs,
    Forall is_stdout outs
    /\ trace (fetch_block w u h result render) = HttpGet u h :: outs
    /\ ((ending (fetch_block w u h result render) = Exit 1
         /\ carries_response (requests_get w u h))
        \/ (~ carries_response (requests_get w u h)
            /\ ((exists s, ending (fetch_block w u h result render) = Ret s)
                \/ exists cls msg,
                     ending (fetch_block w u h result render)
                     = Raise (OtherException cls msg)))).
Proof.
  intros Hplain. pose proof (fetch_block_cases w u h result render Hplain) as H.
  unfold fetch_block_spec in H. unfold carries_response.
  destruct (requests_get w u h) as [r|msg [resp|]|cls msg].
  - destruct (error_status r) eqn:He.
    + rewrite H. eexists. split; [|split; [reflexivity|left; auto]].
      repeat constructor.
    + destruct (content r) as [j|err|cls msg]; rewrite H.
      * exists []. split; [constructor|]. split; [reflexivity|]. right.
        split; [discriminate|].
        destruct (Hplain j) as [[s ->]|(cls & msg & ->)]; cbn; eauto.
      * eexists. split; [|split; [reflexivity|right]].
        { repeat constructor. }
        split; [discriminate|]. left. eauto.
      * exists []. split; [constructor|]. split; [reflexivity|]. right.
        split; [discriminate|]. right. eauto.
  - rewrite H. eexists. split; [|split; [reflexivity|left; auto]].
    repeat constructor.
  - rewrite H. eexists. split; [|split; [reflexivity|right]].
    { repeat constructor. }
    split; [tauto|]. left. eauto.
  - rewrite H. exists []. split; [constructor|]. split; [reflexivity|]. right.
    split; [tauto|]. right. eauto.
Qed.

(** The fetch stage: the pull-request GET always; the files GET when the
    first statement returned.  The stage ends with [exit(1)] exactly when
    the last GET it sent failed with a response attached. *)
Lemma fetch_shape w api_url owner repo pr_number token :
  let f := get_pull_request_details w api_url owner repo pr_number token in
  let get_pr := HttpGet (pr_api_url api_url owner repo pr_number) (fetch_headers token) in
  let get_files :=
    HttpGet (files_api_url api_url owner repo pr_number) (fetch_headers token) in
  let reply_pr :=
    requests_get w (pr_api_url api_url owner repo pr_number) (fetch_headers token) in
  let reply_files :=
    requests_get w (files_api_url api_url owner repo pr_number) (fetch_headers token) in
  exists outs1,
    Forall is_stdout outs1
    /\ ((trace f = get_pr :: outs1
         /\ ((ending f = Exit 1 /\ carries_response reply_pr)
             \/ (~ carries_response reply_pr
                 /\ exists cls msg, ending f = Raise (OtherException cls msg))))
        \/ exists outs2,
             Forall is_stdout outs2
             /\ trace f = get_pr :: outs1 ++ get_files :: outs2
             /\ ~ carries_response reply_pr
             /\ ((ending f = Exit 1 /\ carries_response reply_files)
                 \/ (~ carries_response reply_files
                     /\ ((exists report, ending f = Ret report)
                         \/ exists cls msg,
                              ending f = Raise (OtherException cls msg))))).
Proof.
  intros f get_pr get_files reply_pr reply_files. subst f.
  rewrite get_pull_request_details_blocks.
  destruct (fetch_block_shape w (pr_api_url api_url owner repo pr_number)
              (fetch_headers token) "" (render_pr "") (render_pr_plain ""))
    as (outs1 & Ho1 & Ht1 & He1).
  exists outs1. split; [exact Ho1|].
  destruct He1 as [[He1 Hc1]|[Hc1 [[r1 He1]|(cls & msg & He1)]]].
  - left. rewrite (bind_Exit _ _ _ He1). cbn [trace ending fst snd]. auto.
  - right. rewrite (bind_returns _ _ _ He1), bind_ret_r.
    destruct (fetch_block_shape w (files_api_url api_url owner repo pr_number)
                (fetch_headers token) r1 (render_files r1) (render_files_plain r1))
      as (outs2 & Ho2 & Ht2 & He2).
    exists outs2. split; [exact Ho2|]. cbn [trace ending fst snd].
    rewrite Ht1, Ht2. split; [reflexivity|]. split; [exact Hc1|]. exact He2.
  - left. rewrite (bind_Raise _ _ _ He1). cbn [trace ending fst snd].
    split; [exact Ht1|]. right. eauto.
Qed.

(** The review stage: the command is started once; either it returned 0
    and the stage returns its stripped output, nothing printed, or the
    stage ends with [exit], having written to standard error. *)
Lemma cody_shape w repo prompt :
  (exists out err,
     subprocess_run w (command_list repo prompt) = Completed 0 out err
     /\ execute_cody_cli w repo prompt
        = ([Run (command_list repo prompt)], Ret (str_strip w out)))
  \/ exists code outs,
       execute_cody_cli w repo prompt = (Run (command_list repo prompt) :: outs, Exit code)
       /\ Forall is_output outs
       /\ wrote_stderr outs = true
       /\ ((code <> 0
            /\ exists out err,
                 subprocess_run w (command_list repo prompt) = Completed code out err)
           \/ (code = 1
               /\ forall rc out err,
                    subprocess_run w (command_list repo prompt) <> Completed rc out err)).
Proof.
  rewrite execute_cody_cli_cases.
  destruct (subprocess_run w (command_list repo prompt)) as [rc out err|msg|cls msg].
  - destruct (rc =? 0)%Z eqn:Hrc.
    + left. apply Z.eqb_eq in Hrc as ->. eauto.
    + right. apply Z.eqb_neq in Hrc. do 2 eexists. split; [reflexivity|].
      split; [repeat constructor|]. split; [reflexivity|]. left. eauto.
  - right. do 2 eexists. split; [reflexivity|].
    split; [repeat constructor|]. split; [reflexivity|]. right.
    split; [reflexivity|discriminate].
  - right. do 2 eexists. split; [reflexivity|].
    split; [repeat constructor|]. split; [reflexivity|]. right.
    split; [reflexivity|discriminate].
Qed.

(** The publish stage: one call of [requests.post] with the comment,
    then lines on standard output, none exactly when the call raised
    something else than a RequestException; the stage returns unless such
    an exception leaves it. *)
Lemma publish_shape w api_url owner repo pr_number token comment_body :
  let reply := requests_post w (comments_url api_url owner repo pr_number)
                 (comment_headers token) comment_body in
  exists outs v,
    add_pr_comment w api_url owner repo pr_number token comment_body
    = (HttpPost (comments_url api_url owner repo pr_number) (comment_headers token)
         comment_body :: outs, after_post reply v)
    /\ Forall is_stdout outs
    /\ (outs = [] <-> exists cls msg, reply = Crashed cls msg).
Proof.
  intros reply. subst reply. rewrite add_pr_comment_cases. unfold after_post, escaping.
  destruct (requests_post _ _ _ _) as [r|msg resp|cls msg];
    [destruct (status_code r =? 201)%Z; destruct (content r)| |];
    (eexists;
     first [exists None; split; [reflexivity|]|eexists; split; [reflexivity|]];
     (split; [repeat constructor|]);
     first [split; [discriminate|intros (? & ? & ?); discriminate]
           |split; [eauto|reflexivity]]).
Qed.

(** ** The shape of a whole run *)

Lemma stdout_is_output e : is_stdout e -> is_output e.
Proof. destruct e as [[]|[]| | |]; simpl; tauto. Qed.

Lemma outputs_are_no_calls outs :
  Forall is_output outs ->
  calls outs = [] /\ ran_tool outs = false /\ posted outs = false
  /\ sent_request outs = false.
Proof.
  induction 1 as [|e outs He _ (IH1 & IH2 & IH3 & IH4)]; [repeat split|].
  destruct e; try contradiction; simpl; rewrite ?IH1, ?IH2, ?IH3, ?IH4; auto.
Qed.

Lemma stdout_lines_facts outs :
  Forall is_stdout outs ->
  Forall is_output outs /\ wrote_stderr outs = false.
Proof.
  induction 1 as [|e outs He _ (IH1 & IH2)]; [repeat split; constructor|].
  split; [constructor; [by apply stdout_is_output|exact IH1]|].
  destruct e as [[]|[]| | |]; try contradiction; simpl; exact IH2.
Qed.

Lemma fetch_never_posts w api_url owner repo pr_number token :
  posted (trace (get_pull_request_details w api_url owner repo pr_number token))
  = false.
Proof.
  apply existsb_false_Forall.
  eapply Forall_impl; [apply fetch_events|].
  intros e [->|[->|H]]; [reflexivity..|].
  destruct e; simpl in *; tauto.
Qed.

(** The stages in sequence: the fetch stage does not return and the run
    ends as it does; or it returns a report and the review tool fails, and
    the run ends with the tool's [exit]; or the tool returns 0 and its
    stripped output is posted, after which the run ends normally unless an
    exception leaves the publish stage. *)
Lemma pipeline_shape w api_url repo_host owner name pr_number token :
  let f := get_pull_request_details w api_url owner name pr_number token in
  let p := pipeline w api_url repo_host owner name pr_number token in
  ((forall report, ending f <> Ret report)
   /\ trace p = trace f
   /\ ((ending f = Exit 1 /\ ending p = Exit 1)
       \/ exists cls msg, ending p = Raise (OtherException cls msg)))
  \/ exists report,
       ending f = Ret report
       /\ let cmd := command_list
                       (str_opt repo_host +:+ "/" +:+ owner +:+ "/" +:+ name)
                       (cody_prompt report) in
          ((exists code outs,
              p = (trace f ++ Run cmd :: outs, Exit code)
              /\ Forall is_output outs /\ wrote_stderr outs = true
              /\ ((code <> 0
                   /\ exists out err, subprocess_run w cmd = Completed code out err)
                  \/ (code = 1
                      /\ forall rc out err,
                           subprocess_run w cmd <> Completed rc out err)))
           \/ exists out err outs,
                subprocess_run w cmd = Completed 0 out err
                /\ p = (trace f ++ Run cmd
                          :: HttpPost (comments_url api_url owner name pr_number)
                               (comment_headers token) (str_strip w out) :: outs,
                        after_post
                          (requests_post w (comments_url api_url owner name pr_number)
                             (comment_headers token) (str_strip w out)) tt)
                /\ Forall is_stdout outs).
Proof.
  intros f p. subst p. unfold pipeline. fold f.
  destruct (fetch_shape w api_url owner name pr_number token)
    as (outs1 & Ho1 & Hf). fold f in Hf.
  assert (Hend : (ending f = Exit 1)
                 \/ (exists cls msg, ending f = Raise (OtherException cls msg))
                 \/ exists report, ending f = Ret report).
  { destruct Hf as [(_ & [[? _]|[_ ?]])|(outs2 & _ & _ & _ & [[? _]|[_ [?|?]]])];
      auto. }
  destruct Hend as [He|[(cls & msg & He)|(report & He)]].
  - left. rewrite (bind_Exit _ _ _ He). cbn [trace ending fst snd].
    split; [intros report; rewrite He; discriminate|]. auto.
  - left. rewrite (bind_Raise _ _ _ He). cbn [trace ending fst snd].
    split; [intros report; rewrite He; discriminate|]. eauto.
  - right. exists report. split; [exact He|]. cbv zeta.
    rewrite (bind_returns _ _ _ He).
    destruct (cody_shape w (str_opt repo_host +:+ "/" +:+ owner +:+ "/" +:+ name)
                (cody_prompt report))
      as [(out & err & Hrun & Hc)|(code & outs & Hc & Houts & Herr & Hcode)].
    + right. rewrite Hc, bind_Ret.
      destruct (publish_shape w api_url owner name pr_number token (str_strip w out))
        as (outs & v & Hp & Hos & _).
      rewrite Hp. exists out, err, outs. split; [exact Hrun|]. split; [|exact Hos].
      unfold after_post. destruct (escaping _); cbn; by rewrite ?app_nil_r.
    + left. rewrite Hc. cbn [bind trace ending fst snd].
      exists code, outs. auto.
Qed.

Lemma existsb_false_In {T} (p : T -> bool) (l : list T) (x : T) :
  existsb p l = false -> In x l -> p x = false.
Proof.
  intros H Hin. apply existsb_false_Forall in H.
  rewrite List.Forall_forall in H. auto.
Qed.

(** The only subprocess call of a run that reached the tool. *)
Lemma in_run_of_shape (before rest : list event) (cmd argv : list string) :
  ran_tool before = false -> ran_tool rest = false ->
  In (Run argv) (before ++ Run cmd :: rest) -> argv = cmd.
Proof.
  intros Hb Hr Hin. apply in_app_iff in Hin as [Hin|[Heq|Hin]].
  - apply (existsb_false_In _ _ _ Hb) in Hin. discriminate.
  - congruence.
  - apply (existsb_false_In _ _ _ Hr) in Hin. discriminate.
Qed.

(** How a whole run looks, in five cases. *)
Lemma main_shape w environ :
  (exists line, main w environ = ([Output Stdout line], Exit 1))
  \/ (exists e, main w environ = ([], Raise e))
  \/ exists repo_host repository ref owner name number,
       driver_ready w environ repo_host repository ref owner name number
       /\ let f := get_pull_request_details w (env_api_url environ) owner name number
                     (str_opt (env_token environ)) in
          let m := main w environ in
          ((forall report, ending f <> Ret report)
           /\ trace m = trace f
           /\ ((ending f = Exit 1 /\ ending m = Exit 1)
               \/ exists cls msg, ending m = Raise (OtherException cls msg)))
          \/ exists report,
               ending f = Ret report
               /\ let cmd := command_list
                               (str_opt repo_host +:+ "/" +:+ owner +:+ "/" +:+ name)
                               (cody_prompt report) in
                  ((exists code outs,
                      m = (trace f ++ Run cmd :: outs, Exit code)
                      /\ Forall is_output outs /\ wrote_stderr outs = true
                      /\ ((code <> 0
                           /\ exists out err,
                                subprocess_run w cmd = Completed code out err)
                          \/ (code = 1
                              /\ forall rc out err,
                                   subprocess_run w cmd <> Completed rc out err)))
                   \/ exists out err outs,
                        subprocess_run w cmd = Completed 0 out err
                        /\ m = (trace f ++ Run cmd
                                  :: HttpPost (comments_url (env_api_url environ)
                                                 owner name number)
                                       (comment_headers (str_opt (env_token environ)))
                                       (str_strip w out) :: outs,
                                after_post
                                  (requests_post w
                                     (comments_url (env_api_url environ)
                                        owner name number)
                                     (comment_headers (str_opt (env_token environ)))
                                     (str_strip w out)) tt)
                        /\ Forall is_stdout outs).
Proof.
  destruct (main_inversion w environ)
    as [H|[H|(repo_host & repository & ref & owner & name & number & Hready & Hm)]];
    [auto..|].
  right. right. exists repo_host, repository, ref, owner, name, number.
  split; [exact Hready|]. cbv zeta. rewrite Hm.
  exact (pipeline_shape w (env_api_url environ) repo_host owner name number
           (str_opt (env_token environ))).
Qed.

(** ** How the stages depend on each other (lines 164-226) *)

(** X5.  When the driver has started the review tool and the tool fails,
    the run ends with the tool's return code (1 when the command could not
    be run at all) and no comment is posted; when the tool returns 0 its
    stripped output is posted, and the run then ends normally, unless the
    call of [requests.post] raises an exception that is not a
    RequestException, or the decoding of the answer one that is not a
    JSONDecodeError: the run then ends with that exception, uncaught. *)
Theorem tool_outcome_decides_the_run (w : world) (environ : gmap string string)
    (argv : list string) :
  In (Run argv) (trace (main w environ)) ->
  match subprocess_run w argv with
  | Completed returncode stdout _ =>
      if (returncode =? 0)%Z then
        exists u h,
          In (HttpPost u h (str_strip w stdout)) (trace (main w environ))
          /\ ending (main w environ)
             = match escaping (requests_post w u h (str_strip w stdout)) with
               | Some e => Raise e
               | None => Ret tt
               end
      else
        ending (main w environ) = Exit returncode
        /\ posted (trace (main w environ)) = false
  | NotFound _ | RunError _ _ =>
      ending (main w environ) = Exit 1
      /\ posted (trace (main w environ)) = false
  end.
Proof.
  intros Hin.
  destruct (main_shape w environ)
    as [(line & Hm)|[(e & Hm)
        |(repo_host & repository & ref & owner & name & number & Hready & Hshape)]].
  - rewrite Hm in Hin. destruct Hin as [Hin|[]]; discriminate.
  - rewrite Hm in Hin. destruct Hin.
  - cbv zeta in Hshape.
    pose proof (fetch_never_runs w (env_api_url environ) owner name number
                  (str_opt (env_token environ))) as Hnorun.
    pose proof (fetch_never_posts w (env_api_url environ) owner name number
                  (str_opt (env_token environ))) as Hnopost.
    destruct Hshape as [(_ & Ht & _)|(report & Hf & Hshape)].
    { rewrite Ht in Hin. apply (existsb_false_In _ _ _ Hnorun) in Hin. discriminate. }
    destruct Hshape as [(code & outs & Hm & Houts & _ & Hcode)
                       |(out & err & outs & Hrun & Hm & Hos)].
    + destruct (outputs_are_no_calls outs Houts) as (_ & Hr & Hp & _).
      rewrite Hm in Hin |- *. cbn [trace ending fst snd] in *.
      apply in_run_of_shape in Hin; [|assumption..]. subst argv.
      assert (Hposted : posted (trace
                (get_pull_request_details w (env_api_url environ) owner name number
                   (str_opt (env_token environ))) ++
                Run (command_list
                       (str_opt repo_host +:+ "/" +:+ owner +:+ "/" +:+ name)
                       (cody_prompt report)) :: outs) = false).
      { unfold posted in *. rewrite existsb_app, Hnopost. simpl. exact Hp. }
      destruct Hcode as [(Hne & out & err & Hrun)|(-> & Hnone)].
      * rewrite Hrun. destruct (code =? 0)%Z eqn:Hz; [lia|]. auto.
      * destruct (subprocess_run w _) as [rc out err| |] eqn:Hrun; auto.
        exfalso. eapply Hnone. reflexivity.
    + destruct (stdout_lines_facts outs Hos) as (Houts & _).
      destruct (outputs_are_no_calls outs Houts) as (_ & Hr & _ & _).
      rewrite Hm in Hin |- *. cbn [trace ending fst snd] in *.
      apply in_run_of_shape in Hin; [|assumption|simpl; exact Hr]. subst argv.
      rewrite Hrun. cbn [Z.eqb]. do 2 eexists. split; [|reflexivity].
      apply in_app_iff. right. right. left. reflexivity.
Qed.

Lemma tool_outcome_decides_the_run_witness :
  In (Run (command_list "api.github.com/acme/widgets"
             (cody_prompt (rendered_report "Fix typo" "None" (map file_of demo_files)))))
     (trace (main failing_tool_world demo_env))
  /\ ending (main failing_tool_world demo_env) = Exit 3
  /\ posted (trace (main failing_tool_world demo_env)) = false.
Proof.
  assert (Hin : In (Run (command_list "api.github.com/acme/widgets"
                           (cody_prompt (rendered_report "Fix typo" "None"
                                           (map file_of demo_files)))))
                  (trace (main failing_tool_world demo_env)))
    by (vm_compute; auto 10).
  split; [exact Hin|].
  exact (tool_outcome_decides_the_run failing_tool_world demo_env _ Hin).
Defined.

(** The only POST of a run that reached the publish stage. *)
Lemma in_post_of_shape (before outs : list event) (cmd : list string)
    (u u' : string) (h h' : headers) (b b' : string) :
  posted before = false -> Forall is_stdout outs ->
  In (HttpPost u' h' b') (before ++ Run cmd :: HttpPost u h b :: outs) ->
  u' = u /\ h' = h /\ b' = b.
Proof.
  intros Hb Ho Hin. apply in_app_iff in Hin as [Hin|[Heq|[Heq|Hin]]].
  - apply (existsb_false_In _ _ _ Hb) in Hin. discriminate.
  - discriminate.
  - injection Heq; auto.
  - rewrite List.Forall_forall in Ho. destruct (Ho _ Hin).
Qed.

(** X6.  A comment that the driver posts is the stripped standard output
    of the review tool, which the driver started before and which returned
    0; the POST goes to the issue-comments URL of the pull request with the
    Bearer token. *)
Theorem posted_comment_is_tool_output (w : world) (environ : gmap string string)
    (u : string) (h : headers) (b : string) :
  In (HttpPost u h b) (trace (main w environ)) ->
  exists argv out err,
    In (Run argv) (trace (main w environ))
    /\ subprocess_run w argv = Completed 0 out err
    /\ b = str_strip w out
    /\ h = comment_headers (str_opt (env_token environ)).
Proof.
  intros Hin.
  destruct (main_shape w environ)
    as [(line & Hm)|[(e & Hm)
        |(repo_host & repository & ref & owner & name & number & Hready & Hshape)]].
  - rewrite Hm in Hin. destruct Hin as [Hin|[]]; discriminate.
  - rewrite Hm in Hin. destruct Hin.
  - cbv zeta in Hshape.
    pose proof (fetch_never_posts w (env_api_url environ) owner name number
                  (str_opt (env_token environ))) as Hnopost.
    destruct Hshape as [(_ & Ht & _)|(report & Hf & Hshape)].
    { rewrite Ht in Hin. apply (existsb_false_In _ _ _ Hnopost) in Hin. discriminate. }
    destruct Hshape as [(code & outs & Hm & Houts & _ & Hcode)
                       |(out & err & outs & Hrun & Hm & Hos)].
    + destruct (outputs_are_no_calls outs Houts) as (_ & _ & Hp & _).
      rewrite Hm in Hin. cbn [trace fst] in Hin.
      apply in_app_iff in Hin as [Hin|[Heq|Hin]]; [|discriminate|].
      * apply (existsb_false_In _ _ _ Hnopost) in Hin. discriminate.
      * apply (existsb_false_In _ _ _ Hp) in Hin. discriminate.
    + rewrite Hm in Hin |- *. cbn [trace fst] in *.
      apply in_post_of_shape in Hin as (-> & -> & ->); [|assumption..].
      do 3 eexists. split; [|split; [exact Hrun|split; reflexivity]].
      apply in_app_iff. right. left. reflexivity.
Qed.

Lemma posted_comment_is_tool_output_witness :
  exists argv out err,
    In (Run argv) (trace (main demo_world demo_env))
    /\ subprocess_run demo_world argv = Completed 0 out err
    /\ "Looks good." = str_strip demo_world out
    /\ comment_headers "t0k" = comment_headers (str_opt (env_token demo_env)).
Proof.
  assert (Hin : In (HttpPost (comments_url demo_api "acme" "widgets" "42")
                      (comment_headers "t0k") "Looks good.")
                  (trace (main demo_world demo_env)))
    by (vm_compute; auto 10).
  exact (posted_comment_is_tool_output demo_world demo_env _ _ _ Hin).
Defined.

(** X7.  No run ends normally without having called [requests.post]
    with the comment.  Once that call is made the run never ends through
    [exit]: it ends normally whatever status the POST is answered with,
    when the answer is not JSON and when the POST raises a
    RequestException; it ends with the exception, uncaught, when the call
    raises one that is not a RequestException or the decoding of the
    answer one that is not a JSONDecodeError. *)
Theorem run_ending_and_the_post (w : world) (environ : gmap string string) :
  (ending (main w environ) = Ret tt -> posted (trace (main w environ)) = true)
  /\ forall u h b,
       In (HttpPost u h b) (trace (main w environ)) ->
       ending (main w environ)
       = match escaping (requests_post w u h b) with
         | Some e => Raise e
         | None => Ret tt
         end.
Proof.
  destruct (main_shape w environ)
    as [(line & Hm)|[(e & Hm)
        |(repo_host & repository & ref & owner & name & number & Hready & Hshape)]].
  - rewrite Hm. cbn. split; [discriminate|]. intros u h b [Hin|[]]. discriminate.
  - rewrite Hm. cbn. split; [discriminate|]. intros u h b [].
  - cbv zeta in Hshape.
    pose proof (fetch_never_posts w (env_api_url environ) owner name number
                  (str_opt (env_token environ))) as Hnopost.
    destruct Hshape as [(_ & Ht & Hend)|(report & Hf & Hshape)].
    { rewrite Ht. split.
      - destruct Hend as [[_ ->]|(cls & msg & ->)]; discriminate.
      - intros u h b Hin. apply (existsb_false_In _ _ _ Hnopost) in Hin.
        discriminate. }
    destruct Hshape as [(code & outs & Hm & Houts & _ & Hcode)
                       |(out & err & outs & Hrun & Hm & Hos)].
    + destruct (outputs_are_no_calls outs Houts) as (_ & _ & Hp & _).
      rewrite Hm. cbn [trace ending fst snd]. split; [discriminate|].
      intros u h b Hin. apply in_app_iff in Hin as [Hin|[Heq|Hin]]; [|discriminate|].
      * apply (existsb_false_In _ _ _ Hnopost) in Hin. discriminate.
      * apply (existsb_false_In _ _ _ Hp) in Hin. discriminate.
    + rewrite Hm. cbn [trace ending fst snd]. split.
      * intros _. unfold posted. rewrite existsb_app. simpl.
        by rewrite orb_true_r.
      * intros u h b Hin.
        apply in_post_of_shape in Hin as (-> & -> & ->); [|assumption..].
        reflexivity.
Qed.

Lemma run_ending_and_the_post_witness :
  ending (main unencodable_world demo_env)
  = Raise (OtherException "UnicodeEncodeError" "'latin-1' codec can't encode character").
Proof.
  assert (Hin : In (HttpPost (comments_url demo_api "acme" "widgets" "42")
                      (comment_headers "t0k") "Looks good.")
                  (trace (main unencodable_world demo_env)))
    by (vm_compute; auto 10).
  exact (proj2 (run_ending_and_the_post unencodable_world demo_env) _ _ _ Hin).
Defined.

(** X8.  The exit codes of a run: when a run ends through [exit], the
    code is 1 or it is the non-zero return code of the review tool that
    the run started. *)
Theorem exit_codes_of_a_run (w : world) (environ : gmap string string) (code : Z) :
  ending (main w environ) = Exit code ->
  code = 1
  \/ (code <> 0
      /\ exists argv out err,
           In (Run argv) (trace (main w environ))
           /\ subprocess_run w argv = Completed code out err).
Proof.
  intros Hexit.
  destruct (main_shape w environ)
    as [(line & Hm)|[(e & Hm)
        |(repo_host & repository & ref & owner & name & number & Hready & Hshape)]].
  - rewrite Hm in Hexit. injection Hexit; auto.
  - rewrite Hm in Hexit. discriminate.
  - cbv zeta in Hshape.
    destruct Hshape as [(_ & Ht & Hend)|(report & Hf & Hshape)].
    { destruct Hend as [[_ He]|(cls & msg & He)]; rewrite He in Hexit;
        [injection Hexit; auto|discriminate]. }
    destruct Hshape as [(c & outs & Hm & Houts & _ & Hcode)
                       |(out & err & outs & Hrun & Hm & Hos)].
    + rewrite Hm in Hexit |- *. cbn [trace ending fst snd] in *.
      injection Hexit as ->.
      destruct Hcode as [(Hne & out & err & Hrun)|(-> & _)]; [right|auto].
      split; [exact Hne|]. do 3 eexists. split; [|exact Hrun].
      apply in_app_iff. right. left. reflexivity.
    + rewrite Hm in Hexit. cbn [ending snd] in Hexit. unfold after_post in Hexit.
      destruct (escaping _); discriminate.
Qed.

Lemma exit_codes_of_a_run_witness :
  3 = 1
  \/ (3 <> 0
      /\ exists argv out err,
           In (Run argv) (trace (main failing_tool_world demo_env))
           /\ subprocess_run failing_tool_world argv = Completed 3 out err).
Proof.
  assert (Hexit : ending (main failing_tool_world demo_env) = Exit 3)
    by (vm_compute; reflexivity).
  exact (exit_codes_of_a_run failing_tool_world demo_env 3 Hexit).
Defined.

(** X9.  The review tool is started only after the fetch stage has
    returned a report, and with exactly six arguments: [cody], [chat],
    [--context-repo], the context [host/owner/name] (the host printed as
    None when the API URL has no host name), [-m], and the prompt, which
    is the fixed head, the report as the fetch stage returned it, and the
    fixed tail, as one argument. *)
Theorem tool_arguments (w : world) (environ : gmap string string)
    (argv : list string) :
  In (Run argv) (trace (main w environ)) ->
  exists repo_host repository ref owner name number report,
    driver_ready w environ repo_host repository ref owner name number
    /\ ending (get_pull_request_details w (env_api_url environ) owner name number
                 (str_opt (env_token environ))) = Ret report
    /\ argv = ["cody"; "chat"; "--context-repo";
               str_opt repo_host +:+ "/" +:+ owner +:+ "/" +:+ name;
               "-m"; prompt_head +:+ report +:+ prompt_tail].
Proof.
  intros Hin.
  destruct (main_shape w environ)
    as [(line & Hm)|[(e & Hm)
        |(repo_host & repository & ref & owner & name & number & Hready & Hshape)]].
  - rewrite Hm in Hin. destruct Hin as [Hin|[]]; discriminate.
  - rewrite Hm in Hin. destruct Hin.
  - cbv zeta in Hshape.
    pose proof (fetch_never_runs w (env_api_url environ) owner name number
                  (str_opt (env_token environ))) as Hnorun.
    destruct Hshape as [(_ & Ht & _)|(report & Hf & Hshape)].
    { rewrite Ht in Hin. apply (existsb_false_In _ _ _ Hnorun) in Hin. discriminate. }
    exists repo_host, repository, ref, owner, name, number, report.
    split; [exact Hready|]. split; [exact Hf|].
    destruct Hshape as [(code & outs & Hm & Houts & _ & Hcode)
                       |(out & err & outs & Hrun & Hm & Hos)];
      rewrite Hm in Hin; cbn [trace fst] in Hin.
    + destruct (outputs_are_no_calls outs Houts) as (_ & Hr & _ & _).
      apply in_run_of_shape in Hin; [exact Hin|assumption..].
    + destruct (stdout_lines_facts outs Hos) as (Houts & _).
      destruct (outputs_are_no_calls outs Houts) as (_ & Hr & _ & _).
      apply in_run_of_shape in Hin; [exact Hin|assumption|simpl; exact Hr].
Qed.

Lemma tool_arguments_witness :
  exists repo_host repository ref owner name number report,
    driver_ready demo_world demo_env repo_host repository ref owner name number
    /\ ending (get_pull_request_details demo_world (env_api_url demo_env) owner name
                 number (str_opt (env_token demo_env))) = Ret report
    /\ command_list "api.github.com/acme/widgets"
         (cody_prompt (rendered_report "Fix typo" "None" (map file_of demo_files)))
       = ["cody"; "chat"; "--context-repo";
          str_opt repo_host +:+ "/" +:+ owner +:+ "/" +:+ name;
          "-m"; prompt_head +:+ report +:+ prompt_tail].
Proof.
  assert (Hin : In (Run (command_list "api.github.com/acme/widgets"
                           (cody_prompt (rendered_report "Fix typo" "None"
                                           (map file_of demo_files)))))
                  (trace (main demo_world demo_env)))
    by (vm_compute; auto 10).
  exact (tool_arguments demo_world demo_env _ Hin).
Defined.

Lemma calls_app (a b : list event) : calls (a ++ b) = calls a ++ calls b.
Proof. unfold calls. apply List.filter_app. Qed.

Lemma calls_stdout outs : Forall is_stdout outs -> calls outs = [].
Proof.
  intros H. apply stdout_lines_facts in H as [H _].
  by apply outputs_are_no_calls in H as (? & _).
Qed.

(** The calls of the fetch stage: the pull-request GET, then possibly the
    files GET; both when the stage returns. *)
Lemma fetch_calls w api_url owner repo pr_number token :
  let f := get_pull_request_details w api_url owner repo pr_number token in
  let get_pr := HttpGet (pr_api_url api_url owner repo pr_number) (fetch_headers token) in
  let get_files :=
    HttpGet (files_api_url api_url owner repo pr_number) (fetch_headers token) in
  (calls (trace f) = [get_pr] /\ forall report, ending f <> Ret report)
  \/ calls (trace f) = [get_pr; get_files].
Proof.
  intros f get_pr get_files.
  destruct (fetch_shape w api_url owner repo pr_number token) as (outs1 & Ho1 & Hf).
  fold f get_pr get_files in Hf.
  destruct Hf as [(Ht & Hend)|(outs2 & Ho2 & Ht & _)].
  - left. rewrite Ht. split.
    + change (get_pr :: outs1) with ([get_pr] ++ outs1).
      rewrite calls_app, (calls_stdout outs1 Ho1). reflexivity.
    + intros report Hr.
      destruct Hend as [[He _]|(_ & cls & msg & He)]; congruence.
  - right. rewrite Ht.
    change (get_pr :: outs1 ++ get_files :: outs2)
      with ([get_pr] ++ outs1 ++ [get_files] ++ outs2).
    rewrite !calls_app, (calls_stdout outs1 Ho1), (calls_stdout outs2 Ho2).
    reflexivity.
Qed.

(** X10.  The calls a run makes to the outside are, in this order, an
    initial part of: the pull-request GET, the files GET (at that URL
    followed by [/files], with the same headers), the review tool, the
    POST of the comment.  So each is made at most once, the tool is started
    only after both GETs, and the POST only after the tool. *)
Theorem calls_follow_the_stages (w : world) (environ : gmap string string) :
  exists u h argv u' h' b,
    calls (trace (main w environ))
    `prefix_of` [HttpGet u h; HttpGet (u +:+ "/files") h; Run argv; HttpPost u' h' b].
Proof.
  destruct (main_shape w environ)
    as [(line & Hm)|[(e & Hm)
        |(repo_host & repository & ref & owner & name & number & Hready & Hshape)]].
  - rewrite Hm. exists "", [], [], "", [], "". apply prefix_nil.
  - rewrite Hm. exists "", [], [], "", [], "". apply prefix_nil.
  - cbv zeta in Hshape.
    pose proof (fetch_calls w (env_api_url environ) owner name number
                  (str_opt (env_token environ))) as Hcalls. cbv zeta in Hcalls.
    exists (pr_api_url (env_api_url environ) owner name number),
      (fetch_headers (str_opt (env_token environ))).
    fold (files_api_url (env_api_url environ) owner name number).
    destruct Hshape as [(_ & Ht & _)|(report & Hf & Hshape)].
    { exists [], "", [], "". rewrite Ht.
      destruct Hcalls as [[-> _]| ->]; eexists; reflexivity. }
    destruct Hcalls as [[_ Hno]|Hcalls]; [destruct (Hno _ Hf)|].
    destruct Hshape as [(code & outs & Hm & Houts & _ & Hcode)
                       |(out & err & outs & Hrun & Hm & Hos)];
      rewrite Hm; cbn [trace fst].
    + destruct (outputs_are_no_calls outs Houts) as (Hc & _).
      eexists _, "", [], "".
      match goal with |- context [?t ++ Run ?c :: outs] =>
        change (t ++ Run c :: outs) with (t ++ [Run c] ++ outs) end.
      rewrite !calls_app, Hcalls, Hc. eexists; reflexivity.
    + do 4 eexists.
      match goal with |- context [?t ++ Run ?c :: ?p :: outs] =>
        change (t ++ Run c :: p :: outs) with (t ++ [Run c; p] ++ outs) end.
      rewrite !calls_app, Hcalls, (calls_stdout outs Hos). eexists; reflexivity.
Qed.

(** ** What the requests of a run are (lines 27, 44, 101, 153-162) *)

(** X11.  Every HTTP request of a run is one of three: the GET of
    [api/repos/owner/name/pulls/number], the GET of that URL followed by
    [/files], or the POST to [api/repos/owner/name/issues/number/comments];
    [api] is GITHUB_API_URL, or https://api.github.com when that is unset,
    GITHUB_REPOSITORY is exactly [owner/name] with no further slash, and
    [number] is the piece at index 2 of GITHUB_REF; the GETs carry the
    [token] header and the POST the [Bearer] header of the driver's
    token. *)
Theorem requests_target_the_pull_request (w : world) (environ : gmap string string)
    (e : event) :
  In e (trace (main w environ)) -> is_request e = true ->
  exists repo_host repository ref owner name number,
    driver_ready w environ repo_host repository ref owner name number
    /\ repository = owner +:+ "/" +:+ name
    /\ occurs slash owner = false /\ occurs slash name = false
    /\ let api := default "https://api.github.com" (environ !! "GITHUB_API_URL") in
       let token := str_opt (env_token environ) in
       e = HttpGet (pr_api_url api owner name number) (fetch_headers token)
       \/ e = HttpGet (pr_api_url api owner name number +:+ "/files")
                (fetch_headers token)
       \/ exists b, e = HttpPost (comments_url api owner name number)
                          (comment_headers token) b.
Proof.
  intros Hin Hreq.
  destruct (main_shape w environ)
    as [(line & Hm)|[(x & Hm)
        |(repo_host & repository & ref & owner & name & number & Hready & Hshape)]].
  - rewrite Hm in Hin. destruct Hin as [<-|[]]. discriminate.
  - rewrite Hm in Hin. destruct Hin.
  - exists repo_host, repository, ref, owner, name, number.
    split; [exact Hready|].
    destruct Hready as (_ & _ & _ & _ & _ & _ & Hsplit & _).
    destruct (split_on_two slash repository owner name Hsplit) as (Hrep & Ho & Hn).
    split; [exact Hrep|]. split; [exact Ho|]. split; [exact Hn|].
    cbv zeta in *. fold (env_api_url environ).
    fold (files_api_url (env_api_url environ) owner name number).
    assert (Hfetch : In e (trace (get_pull_request_details w (env_api_url environ)
                                    owner name number (str_opt (env_token environ)))) ->
                     e = HttpGet (pr_api_url (env_api_url environ) owner name number)
                           (fetch_headers (str_opt (env_token environ)))
                     \/ e = HttpGet (files_api_url (env_api_url environ) owner name number)
                              (fetch_headers (str_opt (env_token environ)))).
    { intros Hf.
      pose proof (fetch_events w (env_api_url environ) owner name number
                    (str_opt (env_token environ))) as Hev.
      rewrite List.Forall_forall in Hev. destruct (Hev _ Hf) as [H|[H|H]]; auto.
      destruct e; simpl in *; try discriminate; contradiction. }
    assert (Houtput : forall outs, Forall is_output outs -> In e outs -> False).
    { intros outs Ho' Hi. rewrite List.Forall_forall in Ho'.
      specialize (Ho' _ Hi). destruct e; simpl in *; try discriminate; contradiction. }
    destruct Hshape as [(_ & Ht & _)|(report & Hf & Hshape)].
    { rewrite Ht in Hin. destruct (Hfetch Hin); auto. }
    destruct Hshape as [(code & outs & Hm & Houts & _ & Hcode)
                       |(out & err & outs & Hrun & Hm & Hos)];
      rewrite Hm in Hin; cbn [trace fst] in Hin;
      apply in_app_iff in Hin as [Hin|Hin]; try (destruct (Hfetch Hin); auto; fail).
    + destruct Hin as [<-|Hin]; [discriminate|]. destruct (Houtput _ Houts Hin).
    + destruct Hin as [<-|[<-|Hin]]; [discriminate|eauto|].
      apply stdout_lines_facts in Hos as [Hos _]. destruct (Houtput _ Hos Hin).
Qed.

Lemma requests_target_the_pull_request_witness :
  exists repo_host repository ref owner name number,
    driver_ready demo_world demo_env repo_host repository ref owner name number
    /\ repository = owner +:+ "/" +:+ name
    /\ occurs slash owner = false /\ occurs slash name = false
    /\ (HttpGet demo_files_url (fetch_headers "t0k")
        = HttpGet (pr_api_url "https://api.github.com" owner name number)
            (fetch_headers (str_opt (env_token demo_env)))
        \/ HttpGet demo_files_url (fetch_headers "t0k")
           = HttpGet (pr_api_url "https://api.github.com" owner name number +:+ "/files")
               (fetch_headers (str_opt (env_token demo_env)))
        \/ exists b, HttpGet demo_files_url (fetch_headers "t0k")
                     = HttpPost (comments_url "https://api.github.com" owner name number)
                         (comment_headers (str_opt (env_token demo_env))) b).
Proof.
  assert (Hin : In (HttpGet demo_files_url (fetch_headers "t0k"))
                  (trace (main demo_world demo_env)))
    by (vm_compute; auto 10).
  exact (requests_target_the_pull_request demo_world demo_env _ Hin eq_refl).
Defined.

(** ** Where a run writes (lines 38-40, 60-62, 82-95, 121-129, 139-149, 228) *)

(** X12.  The program's own [print] calls write to standard error
    exactly in the runs that started the review tool and posted no
    comment, that is, when the tool failed: the checks of the driver, the
    fetch stage and the publish stage print to standard output only.
    Counting also the traceback that the interpreter writes when a run
    ends with an uncaught exception, standard error is written exactly
    when the tool failed or the run ends with an uncaught exception. *)
Theorem stderr_only_when_the_tool_fails (w : world) (environ : gmap string string) :
  wrote_stderr (trace (main w environ))
  = ran_tool (trace (main w environ)) && negb (posted (trace (main w environ)))
  /\ stderr_written (main w environ)
     = ran_tool (trace (main w environ)) && negb (posted (trace (main w environ)))
       || uncaught (ending (main w environ)).
Proof.
  assert (H : wrote_stderr (trace (main w environ))
              = ran_tool (trace (main w environ))
                && negb (posted (trace (main w environ))));
    [|split; [exact H|unfold stderr_written; by rewrite H]].
  destruct (main_shape w environ)
    as [(line & Hm)|[(x & Hm)
        |(repo_host & repository & ref & owner & name & number & Hready & Hshape)]].
  - rewrite Hm. reflexivity.
  - rewrite Hm. reflexivity.
  - cbv zeta in Hshape.
    pose proof (fetch_never_posts w (env_api_url environ) owner name number
                  (str_opt (env_token environ))) as Hnopost.
    pose proof (fetch_never_runs w (env_api_url environ) owner name number
                  (str_opt (env_token environ))) as Hnorun.
    pose proof (fetch_never_writes_stderr w (env_api_url environ) owner name number
                  (str_opt (env_token environ))) as Hnoerr.
    destruct Hshape as [(_ & Ht & _)|(report & Hf & Hshape)].
    { rewrite Ht, Hnoerr, Hnorun. reflexivity. }
    destruct Hshape as [(code & outs & Hm & Houts & Herr & Hcode)
                       |(out & err & outs & Hrun & Hm & Hos)];
      rewrite Hm; cbn [trace fst]; unfold wrote_stderr, ran_tool, posted in *;
      rewrite !existsb_app, Hnoerr, Hnorun, Hnopost; simpl.
    + destruct (outputs_are_no_calls outs Houts) as (_ & _ & Hp & _).
      unfold posted in Hp. rewrite Herr, Hp. reflexivity.
    + destruct (stdout_lines_facts outs Hos) as (_ & He).
      unfold wrote_stderr in He. rewrite He. reflexivity.
Qed.

(** ** How the fetch stage ends (lines 28-63) *)

(** X13.  The fetch stage ends through [exit] exactly when one of the
    GETs it sent failed with a response attached (a status from 400 to
    599, or an exception that carries a response); the code is then 1.
    No RequestException ever leaves the stage. *)
Theorem fetch_exits_iff_response_attached (w : world)
    (api_url owner repo pr_number token : string) :
  let f := get_pull_request_details w api_url owner repo pr_number token in
  (ending f = Exit 1 <->
     exists u h, In (HttpGet u h) (trace f) /\ carries_response (requests_get w u h))
  /\ (forall code, ending f = Exit code -> code = 1)
  /\ (forall msg resp, ending f <> Raise (RequestException msg resp)).
Proof.
  intros f.
  destruct (fetch_shape w api_url owner repo pr_number token) as (outs1 & Ho1 & Hf).
  fold f in Hf. cbv zeta in Hf.
  assert (Hout : forall outs u h, Forall is_stdout outs -> In (HttpGet u h) outs -> False).
  { intros outs u h Ho Hi. rewrite List.Forall_forall in Ho. exact (Ho _ Hi). }
  destruct Hf as [(Ht & Hend)|(outs2 & Ho2 & Ht & Hc1 & Hend)].
  - destruct Hend as [[He Hc]|(Hc & cls & msg & He)]; rewrite He, Ht.
    + split; [|split; [intros code [= <-]; reflexivity|discriminate]].
      split; [intros _|reflexivity]. do 2 eexists. split; [left; reflexivity|exact Hc].
    + split; [|split; discriminate].
      split; [discriminate|]. intros (u & h & [[= <- <-]|Hin] & Hcr); [tauto|].
      destruct (Hout _ _ _ Ho1 Hin).
  - assert (Hinv : forall u h,
               In (HttpGet u h)
                  (HttpGet (pr_api_url api_url owner repo pr_number) (fetch_headers token)
                   :: outs1
                   ++ HttpGet (files_api_url api_url owner repo pr_number)
                        (fetch_headers token) :: outs2) ->
               carries_response (requests_get w u h) ->
               carries_response
                 (requests_get w (files_api_url api_url owner repo pr_number)
                    (fetch_headers token))).
    { intros u h [[= <- <-]|Hin] Hcr; [tauto|].
      apply in_app_iff in Hin as [Hin|[[= <- <-]|Hin]]; [|exact Hcr|].
      - destruct (Hout _ _ _ Ho1 Hin).
      - destruct (Hout _ _ _ Ho2 Hin). }
    rewrite Ht.
    destruct Hend as [[He Hc]|(Hc & [(report & He)|(cls & msg & He)])]; rewrite He.
    + split; [|split; [intros code [= <-]; reflexivity|discriminate]].
      split; [intros _|reflexivity]. do 2 eexists. split; [|exact Hc].
      right. apply in_app_iff. right. left. reflexivity.
    + split; [|split; discriminate].
      split; [discriminate|]. intros (u & h & Hin & Hcr).
      destruct (Hc (Hinv u h Hin Hcr)).
    + split; [|split; discriminate].
      split; [discriminate|]. intros (u & h & Hin & Hcr).
      destruct (Hc (Hinv u h Hin Hcr)).
Qed.

(** X14.  When the pull-request GET raises an exception without a
    response and the files GET is answered with an accepted status and a
    JSON array, the stage prints the error line and returns a report that
    holds the changed files only: no pull-request header, title or body. *)
Theorem report_without_pull_request_details (w : world)
    (api_url owner repo pr_number token msg : string) (rf : response)
    (files : list (gmap string pyval)) :
  requests_get w (pr_api_url api_url owner repo pr_number) (fetch_headers token)
    = Failed msg None ->
  requests_get w (files_api_url api_url owner repo pr_number) (fetch_headers token)
    = Replied rf ->
  error_status rf = false -> content rf = JsonBody (JArray files) ->
  get_pull_request_details w api_url owner repo pr_number token =
    ([HttpGet (pr_api_url api_url owner repo pr_number) (fetch_headers token);
      Output Stdout ("Error fetching files data: " +:+ msg);
      HttpGet (files_api_url api_url owner repo pr_number) (fetch_headers token)],
     Ret ("--- Changed Files ---" +:+ LF
          +:+ foldr (fun f rest => rendered_file f +:+ rest) "" (map file_of files))).
Proof.
  intros Hp Hf Hfs Hfc. rewrite get_pull_request_details_blocks.
  pose proof (fetch_block_cases w (pr_api_url api_url owner repo pr_number)
                (fetch_headers token) "" _ (render_pr_plain "")) as H1.
  unfold fetch_block_spec in H1. rewrite Hp in H1. rewrite H1, bind_Ret.
  pose proof (fetch_block_cases w (files_api_url api_url owner repo pr_number)
                (fetch_headers token) "" _ (render_files_plain "")) as H2.
  unfold fetch_block_spec in H2. rewrite Hf, Hfs, Hfc in H2.
  rewrite bind_ret_r, H2. cbn [render_files ending trace fst snd ret app].
  rewrite fold_append_file_rendered, !append_nil_l. reflexivity.
Qed.

Lemma report_without_pull_request_details_witness :
  get_pull_request_details half_offline_world demo_api "acme" "widgets" "42" "t0k" =
    ([HttpGet demo_pr_url (fetch_headers "t0k");
      Output Stdout "Error fetching files data: Connection refused";
      HttpGet demo_files_url (fetch_headers "t0k")],
     Ret ("--- Changed Files ---" +:+ LF
          +:+ foldr (fun f rest => rendered_file f +:+ rest) ""
                (map file_of demo_files))).
Proof.
  exact (report_without_pull_request_details half_offline_world demo_api "acme"
           "widgets" "42" "t0k" "Connection refused" files_ok demo_files
           eq_refl eq_refl eq_refl eq_refl).
Defined.

(** ** The effects of the publish stage (lines 99-130) *)

(** X15.  [add_pr_comment] calls [requests.post] exactly once, with the
    comment, the issue-comments URL and the Bearer token, before anything
    else; after it the function prints on standard output only and starts
    no subprocess.  It prints at least one line, except when the call
    itself raises an exception that is not a RequestException: then
    nothing is printed. *)
Theorem add_pr_comment_effects (w : world)
    (api_url owner repo pr_number token comment_body : string) :
  let url := api_url +:+ "/repos/" +:+ owner +:+ "/" +:+ repo +:+ "/issues/"
             +:+ pr_number +:+ "/comments" in
  let hdrs := [("Authorization", "Bearer " +:+ token);
               ("Accept", "application/vnd.github+json");
               ("X-GitHub-Api-Version", "2022-11-28")] in
  exists outs,
    trace (add_pr_comment w api_url owner repo pr_number token comment_body)
    = HttpPost url hdrs comment_body :: outs
    /\ Forall is_stdout outs
    /\ calls outs = []
    /\ (outs = [] <-> exists cls msg, requests_post w url hdrs comment_body = Crashed cls msg).
Proof.
  intros url hdrs.
  destruct (publish_shape w api_url owner repo pr_number token comment_body)
    as (outs & v & Hp & Hos & Hne).
  exists outs. rewrite Hp. split; [reflexivity|]. split; [exact Hos|].
  split; [by apply calls_stdout|exact Hne].
Qed.

(** ** Which check stops the driver (lines 136-151) *)

Lemma py_or_falsy a b :
  truthy (py_or a b) = false <-> truthy a = false /\ truthy b = false.
Proof.
  unfold py_or. destruct (truthy a) eqn:Ha.
  - rewrite Ha. split; [discriminate|intros [? _]; discriminate].
  - tauto.
Qed.

Lemma trace_bind_starts {A B} (m : M A) (k : A -> M B) :
  exists rest, trace (bind m k) = trace m ++ rest.
Proof.
  destruct m as [t [a|c|x]].
  - rewrite bind_Ret. eexists. reflexivity.
  - exists []. cbn. by rewrite app_nil_r.
  - exists []. cbn. by rewrite app_nil_r.
Qed.

(** With the three checks passed, no line of a check is printed: an
    exception leaves the driver before any effect, or the run starts with
    the pull-request GET. *)
Lemma main_after_checks w environ :
  environ !! "GITHUB_EVENT_NAME" = Some "pull_request" ->
  truthy (env_token environ) = true ->
  truthy (environ !! "SRC_ENDPOINT") = true ->
  truthy (environ !! "SRC_ACCESS_TOKEN") = true ->
  (exists e, main w environ = ([], Raise e))
  \/ exists u h rest, trace (main w environ) = HttpGet u h :: rest.
Proof.
  intros Hev Htok Hend Hacc.
  destruct (main_inversion w environ)
    as [(line & Hm)|[H|(repo_host & repository & ref & owner & name & number & _ & Hm)]];
    [|auto|].
  - exfalso. revert Hm. unfold main. rewrite decide_True by exact Hev.
    unfold env_token in Htok. rewrite Htok, Hend, Hacc. cbn [negb orb].
    rewrite !bind_ret_l.
    destruct (urlparse_hostname w _) as [e|host]; [discriminate|].
    rewrite bind_ret_l.
    destruct (environ !! "GITHUB_REPOSITORY") as [repository|]; [|discriminate].
    unfold env_split. rewrite bind_ret_l.
    destruct (split_on slash repository) as [|a [|b [|c l]]]; try discriminate.
    rewrite bind_ret_l.
    destruct (environ !! "GITHUB_REF") as [ref|]; [|discriminate].
    rewrite bind_ret_l.
    destruct (split_on slash ref !! 2%nat) as [number|]; [|discriminate].
    rewrite bind_ret_l. intros Hm.
    destruct (trace_bind_starts
                (get_pull_request_details w
                   (default "https://api.github.com" (environ !! "GITHUB_API_URL"))
                   a b number
                   (str_opt (py_or (environ !! "GITHUB_TOKEN") (environ !! "GH_TOKEN"))))
                (fun pr_details =>
                   comment <- execute_cody_cli w
                                (str_opt host +:+ "/" +:+ a +:+ "/" +:+ b)
                                (cody_prompt pr_details) ;;
                   add_pr_comment w
                     (default "https://api.github.com" (environ !! "GITHUB_API_URL"))
                     a b number
                     (str_opt (py_or (environ !! "GITHUB_TOKEN") (environ !! "GH_TOKEN")))
                     comment ;;;
                   ret tt)) as (rest & Hrest).
    rewrite Hm in Hrest. cbn [trace fst] in Hrest.
    destruct (fetch_shape w
                (default "https://api.github.com" (environ !! "GITHUB_API_URL"))
                a b number
                (str_opt (py_or (environ !! "GITHUB_TOKEN") (environ !! "GH_TOKEN"))))
      as (outs1 & _ & [(Ht & _)|(outs2 & _ & Ht & _)]);
      rewrite Ht in Hrest; discriminate.
  - right. rewrite Hm. unfold pipeline.
    match goal with |- context [trace (bind ?m ?k)] =>
      destruct (trace_bind_starts m k) as (rest & ->) end.
    destruct (fetch_shape w (env_api_url environ) owner name number
                (str_opt (env_token environ)))
      as (outs1 & _ & [(Ht & _)|(outs2 & _ & Ht & _)]);
      rewrite Ht; cbn; eauto.
Qed.

(** X16.  In a pull-request run, the token message is what the driver
    prints, followed by [exit(1)], exactly when GITHUB_TOKEN and GH_TOKEN
    are both unset or empty; the Cody message exactly when a token is
    there and SRC_ENDPOINT or SRC_ACCESS_TOKEN is unset or empty.  So the
    token is checked first, and a run whose variables are all set never
    ends in either message. *)
Theorem which_check_stops_the_driver (w : world) (environ : gmap string string) :
  environ !! "GITHUB_EVENT_NAME" = Some "pull_request" ->
  (main w environ = ([Output Stdout token_missing_message], Exit 1)
   <-> unset_or_empty (environ !! "GITHUB_TOKEN")
       /\ unset_or_empty (environ !! "GH_TOKEN"))
  /\ (main w environ = ([Output Stdout cody_missing_message], Exit 1)
      <-> ~ (unset_or_empty (environ !! "GITHUB_TOKEN")
             /\ unset_or_empty (environ !! "GH_TOKEN"))
          /\ (unset_or_empty (environ !! "SRC_ENDPOINT")
              \/ unset_or_empty (environ !! "SRC_ACCESS_TOKEN"))).
Proof.
  intros Hev. rewrite <- !truthy_false, <- py_or_falsy.
  fold (env_token environ).
  destruct (truthy (env_token environ)) eqn:Htok.
  - assert (Hcody : negb (truthy (environ !! "SRC_ENDPOINT"))
                    || negb (truthy (environ !! "SRC_ACCESS_TOKEN")) = true ->
                    main w environ = ([Output Stdout cody_missing_message], Exit 1)).
    { intros Hc. unfold main. rewrite decide_True by exact Hev.
      unfold env_token in Htok. rewrite Htok, Hc. reflexivity. }
    destruct (truthy (environ !! "SRC_ENDPOINT")) eqn:Hend;
      [destruct (truthy (environ !! "SRC_ACCESS_TOKEN")) eqn:Hacc|].
    + destruct (main_after_checks w environ Hev Htok Hend Hacc)
        as [(e & Hm)|(u & h & rest & Hm)].
      * rewrite Hm. split; (split; [discriminate|]); [discriminate|].
        intros [_ [?|?]]; discriminate.
      * split; (split; [intros Heq; rewrite Heq in Hm; discriminate|]);
          [discriminate|]. intros [_ [?|?]]; discriminate.
    + rewrite (Hcody eq_refl). split; [split; discriminate|].
      split; [|reflexivity]. intros _. split; [discriminate|auto].
    + rewrite (Hcody eq_refl). split; [split; discriminate|].
      split; [|reflexivity]. intros _. split; [discriminate|auto].
  - assert (Hm : main w environ = ([Output Stdout token_missing_message], Exit 1)).
    { unfold main. rewrite decide_True by exact Hev.
      unfold env_token in Htok. rewrite Htok. reflexivity. }
    rewrite Hm. split; [tauto|].
    split; [discriminate|]. intros [Hn _]. destruct Hn. reflexivity.
Qed.

Lemma which_check_stops_the_driver_witness :
  main demo_world (delete "SRC_ACCESS_TOKEN" demo_env)
  = ([Output Stdout cody_missing_message], Exit 1)
  <-> ~ (unset_or_empty (delete "SRC_ACCESS_TOKEN" demo_env !! "GITHUB_TOKEN")
         /\ unset_or_empty (delete "SRC_ACCESS_TOKEN" demo_env !! "GH_TOKEN"))
      /\ (unset_or_empty (delete "SRC_ACCESS_TOKEN" demo_env !! "SRC_ENDPOINT")
          \/ unset_or_empty (delete "SRC_ACCESS_TOKEN" demo_env !! "SRC_ACCESS_TOKEN")).
Proof.
  exact (proj2 (which_check_stops_the_driver demo_world
                  (delete "SRC_ACCESS_TOKEN" demo_env) eq_refl)).
Defined.

(** ** An answer of the wrong shape (lines 31-35) *)

(** X17.  When the pull-request GET is answered with an accepted status
    and a JSON array instead of an object, [pr_data.get] raises
    AttributeError, which no handler of the stage catches: the exception
    leaves [get_pull_request_details] right after the first GET, nothing
    is printed and the files GET is not sent. *)
Theorem pull_request_answer_not_an_object (w : world)
    (api_url owner repo pr_number token : string) (rp : response)
    (l : list (gmap string pyval)) :
  requests_get w (pr_api_url api_url owner repo pr_number) (fetch_headers token)
    = Replied rp ->
  error_status rp = false -> content rp = JsonBody (JArray l) ->
  get_pull_request_details w api_url owner repo pr_number token =
    ([HttpGet (pr_api_url api_url owner repo pr_number) (fetch_headers token)],
     Raise (OtherException "AttributeError" "'list' object has no attribute 'get'")).
Proof.
  intros Hp Hps Hpc. rewrite get_pull_request_details_blocks.
  pose proof (fetch_block_cases w (pr_api_url api_url owner repo pr_number)
                (fetch_headers token) "" _ (render_pr_plain "")) as H1.
  unfold fetch_block_spec in H1. rewrite Hp, Hps, Hpc in H1.
  rewrite H1. reflexivity.
Qed.

Lemma pull_request_answer_not_an_object_witness :
  get_pull_request_details array_world demo_api "acme" "widgets" "42" "t0k" =
    ([HttpGet demo_pr_url (fetch_headers "t0k")],
     Raise (OtherException "AttributeError" "'list' object has no attribute 'get'")).
Proof.
  exact (pull_request_answer_not_an_object array_world demo_api "acme" "widgets"
           "42" "t0k" _ [] eq_refl eq_refl eq_refl).
Defined.
